(** * rgbd: the daemon controller ([daemon/controller.py], class [RGBd])

    A shallow embedding of the lifecycle methods of [RGBd] ([__init__],
    [run], [cleanup], [daemonize], [start], [stop], [restart], [reload])
    over an explicit model of the operating system: a table of regular
    files, a table of processes with their reaction to signals, a clock in
    milliseconds and a log of the observable actions.  Every method is a
    computation in a small state-and-exception monad whose results mirror
    the ways a Python call can end: normal return, uncaught exception,
    [sys.exit], or the hand-over to the animation loop.  *)

From Stdlib Require Import ZArith NArith String Ascii List Bool Lia.
From Stdlib Require Import Floats.SpecFloat DecimalString DecimalPos.
From stdpp Require Import base option gmap strings.

Local Open Scope string_scope.
Local Open Scope Z_scope.

(** ** Python values and exceptions *)

(** The values [json.load] produces; a JSON object is kept as the list of
    its members. *)
#[local] Unset Elimination Schemes.
Inductive pyval : Type :=
| PNone
| PBool (b : bool)
| PInt (z : Z)
| PFloat (f : spec_float)
| PStr (s : string)
| PList (l : list pyval)
| PDict (d : list (string * pyval)).
#[local] Set Elimination Schemes.

(** Truth value of a JSON value, as [if v:] and [not v] take it. *)
Definition truthy (v : pyval) : bool :=
  match v with
  | PNone => false
  | PBool b => b
  | PInt z => negb (z =? 0)
  | PFloat (S754_zero _) => false
  | PFloat _ => true
  | PStr s => negb (String.eqb s "")
  | PList l => match l with nil => false | _ => true end
  | PDict d => match d with nil => false | _ => true end
  end.

(** [v == False]: [False] is the integer 0, so it equals [False], [0],
    [0.0] and [-0.0] and nothing else. *)
Definition eq_False (v : pyval) : bool :=
  match v with
  | PBool b => negb b
  | PInt z => z =? 0
  | PFloat (S754_zero _) => true
  | _ => false
  end.

(** The exceptions the controller can meet.  [OSError_ errno] stands for an
    [OSError] that is none of the named subclasses. *)
Inductive exn : Type :=
| FileNotFoundError
| ProcessLookupError
| PermissionError
| OSError_ (errno : Z)
| ValueError
| TypeError
| AssertionError
| OverflowError
| AttributeError (attr : string)
| Exception (msg : string).

(** [isinstance(e, OSError)] *)
Definition is_OSError (e : exn) : bool :=
  match e with
  | FileNotFoundError | ProcessLookupError | PermissionError | OSError_ _ => true
  | _ => false
  end.

Definition is_FileNotFoundError (e : exn) : bool :=
  match e with FileNotFoundError => true | _ => false end.

Definition is_ProcessLookupError (e : exn) : bool :=
  match e with ProcessLookupError => true | _ => false end.

Definition is_PermissionError (e : exn) : bool :=
  match e with PermissionError => true | _ => false end.

(** ** [str.strip] and [int] on the text of the pidfile

    The text of a file is a [string] whose characters are code points below
    256.  In that range the white space of [str.strip()] is U+0009..U+000D,
    U+001C..U+0020, U+0085 and U+00A0, and the decimal digits of [int] are
    [0]..[9]. *)
Definition is_space (c : ascii) : bool :=
  let n := N_of_ascii c in
  ((9 <=? n) && (n <=? 13) || (28 <=? n) && (n <=? 32) || (n =? 133) || (n =? 160))%N.

Definition digit_of (c : ascii) : option Z :=
  let n := Z.of_N (N_of_ascii c) in
  if (48 <=? n) && (n <=? 57) then Some (n - 48) else None.

Fixpoint lstrip (s : string) : string :=
  match s with
  | EmptyString => EmptyString
  | String c s' => if is_space c then lstrip s' else s
  end.

Fixpoint rstrip (s : string) : string :=
  match s with
  | EmptyString => EmptyString
  | String c s' =>
      match rstrip s' with
      | EmptyString => if is_space c then EmptyString else String c EmptyString
      | r => String c r
      end
  end.

(** [s.strip()] *)
Definition str_strip (s : string) : string := rstrip (lstrip s).

(** The digits after the first one: each is a digit, or one underscore
    followed by a digit. *)
Fixpoint int_tail (acc : Z) (s : string) : option Z :=
  match s with
  | EmptyString => Some acc
  | String c s' =>
      match digit_of c with
      | Some d => int_tail (10 * acc + d) s'
      | None =>
          if Ascii.eqb c "_" then
            match s' with
            | String c' s'' =>
                match digit_of c' with
                | Some d => int_tail (10 * acc + d) s''
                | None => None
                end
            | EmptyString => None
            end
          else None
      end
  end.

Definition int_digits (s : string) : option Z :=
  match s with
  | String c s' =>
      match digit_of c with
      | Some d => int_tail d s'
      | None => None
      end
  | EmptyString => None
  end.

(** [int(s)] for a [str] in base 10: white space around the literal is
    dropped, then an optional sign and the digits.  [None] is [ValueError].
    The interpreter's optional cap on the number of digits
    ([sys.set_int_max_str_digits]) is taken as switched off. *)
Definition py_int (s : string) : option Z :=
  match str_strip s with
  | String "+" s' => int_digits s'
  | String "-" s' => Z.opp <$> int_digits s'
  | s' => int_digits s'
  end.

(** ** The configuration

    [json.load] of the configuration file, at the types of the documented
    schema: the two switches are kept as the JSON values they are, because
    the code compares and tests them as Python values; the members of the
    [daemon] object are strings.  [None] is an absent key. *)
Record DaemonConf : Type := {
  c_stdin : option string;
  c_stdin_mode : option string;
  c_stdout : option string;
  c_stdout_mode : option string;
  c_stderr : option string;
  c_stderr_mode : option string;
  c_working_dir : option string;
  c_pidfile : option string
}.

Record Conf : Type := {
  c_blank_on_exit : option pyval;
  c_daemonize : option pyval;
  c_daemon : option DaemonConf
}.

(** [{}] *)
Definition empty_daemon_conf : DaemonConf :=
  {| c_stdin := None; c_stdin_mode := None; c_stdout := None; c_stdout_mode := None;
     c_stderr := None; c_stderr_mode := None; c_working_dir := None; c_pidfile := None |}.

(** [d.get(key, dflt)], the key already looked up. *)
Definition get {A : Type} (member : option A) (dflt : A) : A :=
  match member with Some v => v | None => dflt end.

Definition os_devnull : string := "/dev/null".

(** ** The object *)

(** A [multiprocessing.Process]: its [pid] is [None] until it is started. *)
Record Process : Type := { pid : option Z }.

(** The animation engine, [strip.Strip]; what its methods do is decided by
    the environment (see [call] below). *)
Inductive Strip : Type := StripObject.

(** The instance attributes of [RGBd].  An attribute that was never
    assigned is [None]; reading it raises [AttributeError]. *)
Record RGBd : Type := {
  conf : Conf;
  blank_on_exit : pyval;
  do_daemonize : pyval;
  daemon_stdin : option string;
  daemon_in_md : option string;
  daemon_stdout : option string;
  daemon_out_md : option string;
  daemon_stderr : option string;
  daemon_err_md : option string;
  daemon_chdir : option string;
  daemon_pidfile : option string;
  queue : option unit;
  listener_thread : option Process;
  strip : option Strip
}.

Definition set_queue (self : RGBd) : RGBd :=
  {| conf := conf self; blank_on_exit := blank_on_exit self;
     do_daemonize := do_daemonize self;
     daemon_stdin := daemon_stdin self; daemon_in_md := daemon_in_md self;
     daemon_stdout := daemon_stdout self; daemon_out_md := daemon_out_md self;
     daemon_stderr := daemon_stderr self; daemon_err_md := daemon_err_md self;
     daemon_chdir := daemon_chdir self; daemon_pidfile := daemon_pidfile self;
     queue := Some tt; listener_thread := listener_thread self;
     strip := strip self |}.

Definition set_listener_thread (self : RGBd) (p : Process) : RGBd :=
  {| conf := conf self; blank_on_exit := blank_on_exit self;
     do_daemonize := do_daemonize self;
     daemon_stdin := daemon_stdin self; daemon_in_md := daemon_in_md self;
     daemon_stdout := daemon_stdout self; daemon_out_md := daemon_out_md self;
     daemon_stderr := daemon_stderr self; daemon_err_md := daemon_err_md self;
     daemon_chdir := daemon_chdir self; daemon_pidfile := daemon_pidfile self;
     queue := queue self; listener_thread := Some p;
     strip := strip self |}.

Definition set_strip (self : RGBd) (s : Strip) : RGBd :=
  {| conf := conf self; blank_on_exit := blank_on_exit self;
     do_daemonize := do_daemonize self;
     daemon_stdin := daemon_stdin self; daemon_in_md := daemon_in_md self;
     daemon_stdout := daemon_stdout self; daemon_out_md := daemon_out_md self;
     daemon_stderr := daemon_stderr self; daemon_err_md := daemon_err_md self;
     daemon_chdir := daemon_chdir self; daemon_pidfile := daemon_pidfile self;
     queue := queue self; listener_thread := listener_thread self;
     strip := Some s |}.

(** [RGBd.__init__], after [loadconf] has produced [cf].  With
    [daemonize] equal to [False] it returns before any [daemon_*]
    attribute is assigned. *)
Definition __init__ (cf : Conf) : RGBd :=
  let blank := get (c_blank_on_exit cf) (PBool false) in
  let dd := get (c_daemonize cf) (PBool true) in
  if eq_False dd then
    {| conf := cf; blank_on_exit := blank; do_daemonize := dd;
       daemon_stdin := None; daemon_in_md := None;
       daemon_stdout := None; daemon_out_md := None;
       daemon_stderr := None; daemon_err_md := None;
       daemon_chdir := None; daemon_pidfile := None;
       queue := None; listener_thread := None; strip := None |}
  else
    let d_conf := get (c_daemon cf) empty_daemon_conf in
    {| conf := cf; blank_on_exit := blank; do_daemonize := dd;
       daemon_stdin := Some (get (c_stdin d_conf) os_devnull);
       daemon_in_md := Some (get (c_stdin_mode d_conf) "r");
       daemon_stdout := Some (get (c_stdout d_conf) os_devnull);
       daemon_out_md := Some (get (c_stdout_mode d_conf) "a");
       daemon_stderr := Some (get (c_stderr d_conf) os_devnull);
       daemon_err_md := Some (get (c_stderr_mode d_conf) "a");
       daemon_chdir := Some (get (c_working_dir d_conf) "/");
       daemon_pidfile := Some (get (c_pidfile d_conf) "/tmp/rgbd.pid");
       queue := None; listener_thread := None; strip := None |}.

(** ** The operating system *)

(** The signals the controller names; [SIGNULL] is the signal number 0 of
    [os.kill(pid, 0)], which only probes. *)
Inductive signal : Type := SIGNULL | SIGHUP | SIGINT | SIGKILL | SIGTERM.

(** A process as [os.kill] sees it.  [react s = Some d]: the process is gone
    [d] milliseconds after signal [s] reaches it; [None]: the signal does
    not end it.  [exit_at] is the time of an exit already under way.  A
    child of the calling process stays in the table after its exit, as a
    zombie, until the caller reaps it; any other process is reaped by its
    own parent and is gone at its exit. *)
Record proc : Type := {
  may_signal : bool;
  is_child : bool;
  react : signal -> option N;
  exit_at : option N
}.

(** What one call of [os.fork] gives the process the model follows. *)
Inductive fork_result : Type :=
| InParent (child : Z)
| InChild (newpid : Z)
| ForkFails (errno : Z).

(** Calls whose failure is the environment's choice.  [COpenPidfile] is
    the [open] of the pidfile for writing and [CWritePidfile] the write
    into it; [CPrint] is the [print] that ends [daemonize]; [CRemove] is
    the [os.remove] of a file that is there: the caller may lack the right
    to delete it. *)
Inductive call : Type :=
| CChdir | CSetsid | CUmask | COpenStdin | COpenStdout | COpenStderr | CDup2
| CSignal | COpenPidfile | CWritePidfile | CPrint | CQueue | CProcessStart
| CStripInit | CBlankStrip | CAnimate | CRemove.

(** The texts written to the streams, with the values of their format
    fields. *)
Inductive message : Type :=
| MsgFirstForkFailed (e : exn)      (* "first fork failed: {}\n" *)
| MsgSecondForkFailed (e : exn)     (* "second fork failed: {}\n" *)
| MsgDaemonized (at_ : N)           (* "Daemonization finished at {}" *)
| MsgPidfileExists (pid : Z)        (* "pidfile exists with value {}. There is either ..." *)
| MsgNoPid                          (* "No pid found when stopping - daemon not running?\n" *)
| MsgUnableToKill (pid : Z)         (* "Unable to kill existing process with pid {}.\n" *)
| MsgHung                           (* "Daemon didn't exit in time - possibly hung?\n" *)
| MsgSigkilledChild                 (* "Had to SIGKILL child - pretty bad; potential orphans" *)
| MsgExited (at_ : N).              (* "rgbd exited successfully at {}" *)

Inductive stream : Type := Stdin | Stdout | Stderr.

Inductive handler : Type := HCleanup | HReload.

(** The observable actions, in the order they happen. *)
Inductive event : Type :=
| EStderr (m : message)                       (* sys.stderr.write *)
| EPrint (m : message)                        (* print *)
| EKill (target : Z) (s : signal)             (* os.kill returned *)
| ESleep (ms : N)                             (* time.sleep *)
| EJoin (child : Z) (waited : N)              (* Process.join returned *)
| EBlank                                      (* strip.blank_strip returned *)
| ERemove (path : string)                     (* os.remove deleted the file *)
| EFork (r : fork_result)
| EChdir (path : string)
| ESetsid
| EUmask (mask : Z)
| EFlush (s : stream)
| ERedirect (s : stream) (path mode : string) (* open ... os.dup2 *)
| EBind (s : signal) (h : handler)            (* signal.signal *)
| EWrite (path content : string)              (* open(path, "w") ... write *)
| ESpawn (child : Z)                          (* Process.start *)
| EClose (s : stream).

(** The machine.  [files] holds the regular files by absolute path; the
    three streams are kept apart from it, so that what [daemonize] opens
    for them and what is printed afterwards is in the log and not in
    [files]: the model tells nothing about a configured stream file.
    [procs] is keyed by the number [os.kill] is given; a process of the
    table acts on nothing but itself.  Time passes in [time.sleep] and in
    [Process.join] only. *)
Record World : Type := {
  now : N;                          (* clock, milliseconds *)
  files : gmap string string;       (* regular files: path to text *)
  procs : gmap Z proc;              (* signal targets by the number os.kill takes *)
  own_pid : Z;                      (* os.getpid() *)
  forks : list fork_result;         (* results of the coming os.fork calls *)
  next_child : Z * proc;            (* the child Process.start will create *)
  faults : call -> option exn;
  py_major : Z;                     (* sys.version_info.major *)
  uid : Z; euid : Z; gid : Z;
  log : list event
}.

Definition with_now (w : World) (t : N) : World :=
  {| now := t; files := files w; procs := procs w; own_pid := own_pid w;
     forks := forks w; next_child := next_child w; faults := faults w;
     py_major := py_major w; uid := uid w; euid := euid w; gid := gid w;
     log := log w |}.

Definition with_files (w : World) (f : gmap string string) : World :=
  {| now := now w; files := f; procs := procs w; own_pid := own_pid w;
     forks := forks w; next_child := next_child w; faults := faults w;
     py_major := py_major w; uid := uid w; euid := euid w; gid := gid w;
     log := log w |}.

Definition with_procs (w : World) (p : gmap Z proc) : World :=
  {| now := now w; files := files w; procs := p; own_pid := own_pid w;
     forks := forks w; next_child := next_child w; faults := faults w;
     py_major := py_major w; uid := uid w; euid := euid w; gid := gid w;
     log := log w |}.

Definition with_fork (w : World) (me : Z) (rest : list fork_result) : World :=
  {| now := now w; files := files w; procs := procs w; own_pid := me;
     forks := rest; next_child := next_child w; faults := faults w;
     py_major := py_major w; uid := uid w; euid := euid w; gid := gid w;
     log := log w |}.

Definition with_event (w : World) (e : event) : World :=
  {| now := now w; files := files w; procs := procs w; own_pid := own_pid w;
     forks := forks w; next_child := next_child w; faults := faults w;
     py_major := py_major w; uid := uid w; euid := euid w; gid := gid w;
     log := (log w ++ e :: nil)%list |}.

(** ** Computations

    A call ends by returning, by an exception nobody caught, by
    [sys.exit(status)], or inside [Strip.animate], which does not return:
    [Serving self] is the daemon in its animation loop. *)
Inductive res (A : Type) : Type :=
| Ret (a : A)
| Raise (e : exn)
| Exit (status : Z)
| Serving (self : RGBd).
Arguments Ret {A} a.
Arguments Raise {A} e.
Arguments Exit {A} status.
Arguments Serving {A} self.

Definition M (A : Type) : Type := World -> res A * World.

Definition ret {A : Type} (a : A) : M A := fun w => (Ret a, w).
Definition raise {A : Type} (e : exn) : M A := fun w => (Raise e, w).
Definition sys_exit {A : Type} (status : Z) : M A := fun w => (Exit status, w).

Definition bind {A B : Type} (m : M A) (k : A -> M B) : M B :=
  fun w =>
    match m w with
    | (Ret a, w') => k a w'
    | (Raise e, w') => (Raise e, w')
    | (Exit n, w') => (Exit n, w')
    | (Serving s, w') => (Serving s, w')
    end.

(** [try: m  except C1: h1  except C2: h2 ...]: each clause is the test
    for its class and its handler; the first clause whose class the
    exception belongs to handles it, and what a handler raises is not
    handled here. *)
Fixpoint handle {A : Type} (clauses : list ((exn -> bool) * (exn -> M A))) (e : exn) : M A :=
  match clauses with
  | nil => fun w => (Raise e, w)
  | (class_, h) :: rest => if class_ e then h e else handle rest e
  end.

Definition try_except {A : Type} (m : M A) (clauses : list ((exn -> bool) * (exn -> M A))) : M A :=
  fun w =>
    match m w with
    | (Raise e, w') => handle clauses e w'
    | r => r
    end.

Declare Scope py_scope.
Delimit Scope py_scope with py.
Notation "x <- m ;; k" := (bind m (fun x => k))
  (at level 100, m at next level, right associativity) : py_scope.
Notation "m ;; k" := (bind m (fun _ => k))
  (at level 100, right associativity) : py_scope.
Local Open Scope py_scope.

Definition emit (e : event) : M unit := fun w => (Ret tt, with_event w e).

(** Reading the attribute [name] of [self]. *)
Definition attr {A : Type} (name : string) (v : option A) : M A :=
  match v with
  | Some a => ret a
  | None => raise (AttributeError name)
  end.

(** A call whose failure is the environment's choice. *)
Definition env_call (c : call) : M unit :=
  fun w => match faults w c with
           | Some e => (Raise e, w)
           | None => (Ret tt, w)
           end.

(** *** Files *)

(** [with open(path, "r") as f: f.read()] *)
Definition read_file (path : string) : M string :=
  fun w => match files w !! path with
           | Some text => (Ret text, w)
           | None => (Raise FileNotFoundError, w)
           end.

Definition os_path_exists (path : string) : M bool :=
  fun w => match files w !! path with
           | Some _ => (Ret true, w)
           | None => (Ret false, w)
           end.

Definition os_remove (path : string) : M unit :=
  fun w => match files w !! path with
           | Some _ =>
               match faults w CRemove with
               | Some e => (Raise e, w)
               | None =>
                   (Ret tt, with_event (with_files w (delete path (files w))) (ERemove path))
               end
           | None => (Raise FileNotFoundError, w)
           end.

(** ["{}".format(n)] for an integer *)
Definition format_int (n : Z) : string := NilZero.string_of_int (Z.to_int n).

Definition newline : string := String (ascii_of_N 10) EmptyString.

(** [with open(path, "w") as f: f.write(text)]: an [open] that fails
    changes nothing; once the file is open it is empty, and a write that
    fails leaves it so. *)
Definition write_file (path text : string) : M unit :=
  fun w =>
    match faults w COpenPidfile with
    | Some e => (Raise e, w)
    | None =>
        match faults w CWritePidfile with
        | Some e => (Raise e, with_files w (<[path := ""]> (files w)))
        | None =>
            (Ret tt, with_event (with_files w (<[path := text]> (files w)))
                                (EWrite path text))
        end
    end.

(** *** Time and processes *)

Definition clock : M N := fun w => (Ret (now w), w).

(** [time.sleep], in milliseconds *)
Definition time_sleep (ms : N) : M unit :=
  fun w => (Ret tt, with_event (with_now w (now w + ms)%N) (ESleep ms)).

(** Its exit lies in the past. *)
Definition dead (w : World) (p : proc) : bool :=
  match exit_at p with
  | Some t => (t <=? now w)%N
  | None => false
  end.

(** No longer a target for signals: dead, and not a zombie of ours. *)
Definition gone (w : World) (p : proc) : bool := dead w p && negb (is_child p).

(** The process after signal [s] reached it at time [t]: a signal that
    ends it fixes its exit, unless an earlier exit is under way. *)
Definition deliver (t : N) (s : signal) (p : proc) : proc :=
  match s with
  | SIGNULL => p
  | _ =>
      match react p s with
      | None => p
      | Some d =>
          {| may_signal := may_signal p; is_child := is_child p; react := react p;
             exit_at := match exit_at p with
                        | Some t' => Some (N.min t' (t + d))
                        | None => Some (t + d)%N
                        end |}
      end
  end.

(** The numbers a C [int] holds; [os.kill] takes its [pid] as one. *)
Definition fits_int (z : Z) : bool := (- 2 ^ 31 <=? z) && (z <? 2 ^ 31).

(** [os.kill(target, s)]: the entry of [procs] under [target] is whatever
    the kernel takes that number to name, one process for a positive
    number. *)
Definition os_kill (target : Z) (s : signal) : M unit :=
  fun w =>
    if negb (fits_int target) then (Raise OverflowError, w)
    else
      match procs w !! target with
      | None => (Raise ProcessLookupError, w)
      | Some p =>
          if gone w p then (Raise ProcessLookupError, w)
          else if negb (may_signal p) then (Raise PermissionError, w)
          else
            let p' := if dead w p then p else deliver (now w) s p in
            (Ret tt, with_event (with_procs w (<[target := p']> (procs w))) (EKill target s))
      end.

(** [os.kill(proc.pid, s)]: the [pid] of a process not started is [None],
    which [os.kill] refuses. *)
Definition os_kill_pid (target : option Z) (s : signal) : M unit :=
  match target with
  | Some t => os_kill t s
  | None => raise TypeError
  end.

(** [Process.start()]: the child comes into being and the handle learns
    its pid. *)
Definition Process_start (p : Process) : M Process :=
  env_call CProcessStart ;;
  fun w =>
    let (child, behaviour) := next_child w in
    (Ret {| pid := Some child |},
     with_event (with_procs w (<[child := behaviour]> (procs w))) (ESpawn child)).

(** [Process.join(timeout)], the timeout in milliseconds: returns when the
    child has exited, which reaps it, or when the timeout is over.  A child
    that is no longer in the table was reaped before. *)
Definition Process_join (p : Process) (timeout : N) : M unit :=
  match pid p with
  | None => raise AssertionError
  | Some c =>
      fun w =>
        match procs w !! c with
        | None => (Ret tt, with_event w (EJoin c 0))
        | Some pr =>
            match exit_at pr with
            | Some t =>
                if (t <=? now w + timeout)%N then
                  let t' := N.max (now w) t in
                  (Ret tt, with_event (with_procs (with_now w t') (delete c (procs w)))
                                      (EJoin c (t' - now w)%N))
                else (Ret tt, with_event (with_now w (now w + timeout)%N) (EJoin c timeout))
            | None => (Ret tt, with_event (with_now w (now w + timeout)%N) (EJoin c timeout))
            end
        end
  end.

(** [Process.is_alive()]: polls the child and reaps it when it has
    exited. *)
Definition Process_is_alive (p : Process) : M bool :=
  match pid p with
  | None => raise AssertionError
  | Some c =>
      fun w =>
        match procs w !! c with
        | None => (Ret false, w)
        | Some pr =>
            if dead w pr then (Ret false, with_procs w (delete c (procs w)))
            else (Ret true, w)
        end
  end.

(** [os.fork()]: the next result the environment holds; with none left
    the system refuses ([EAGAIN]).  In the child the process has a pid of
    its own. *)
Definition EAGAIN : Z := 11.

Definition os_fork : M Z :=
  fun w =>
    match forks w with
    | InParent child :: rest =>
        (Ret child, with_event (with_fork w (own_pid w) rest) (EFork (InParent child)))
    | InChild newpid :: rest =>
        (Ret 0, with_event (with_fork w newpid rest) (EFork (InChild newpid)))
    | ForkFails errno :: rest =>
        (Raise (OSError_ errno), with_fork w (own_pid w) rest)
    | nil => (Raise (OSError_ EAGAIN), w)
    end.

(** ** The methods of [RGBd] *)

(** [Strip.blank_strip()] *)
Definition blank_strip (s : Strip) : M unit :=
  env_call CBlankStrip ;; emit EBlank.

(** [Strip.animate(queue)]: does not return; the daemon [self] is in its
    animation loop, unless the engine raises. *)
Definition animate (s : Strip) (self : RGBd) : M unit :=
  env_call CAnimate ;; fun w => (Serving self, w).

(** [RGBd.run] *)
Definition run (self : RGBd) : M unit :=
  major <- (fun w => (Ret (py_major w), w)) ;;
  (if major <? 3 then raise (Exception "must be running at least python 3") else ret tt) ;;
  ids <- (fun w => (Ret (uid w, euid w, gid w), w)) ;;
  (let '(u, e, g) := ids in
   if (u =? 0) || (e =? 0) || (g =? 0)
   then raise (Exception ("This daemon should not be run as root due to security reasons."
                          ++ newline
                          ++ "Please control your ws281x using SPI instead of PWM."))
   else ret tt) ;;
  env_call CQueue ;;
  let self := set_queue self in
  let self := set_listener_thread self {| pid := None |} in
  lt <- attr "listener_thread" (listener_thread self) ;;
  lt <- Process_start lt ;;
  let self := set_listener_thread self lt in
  env_call CStripInit ;;
  let self := set_strip self StripObject in
  st <- attr "strip" (strip self) ;;
  animate st self.

(** [RGBd.cleanup], lines 60 to 65: the child is asked to stop with
    [SIGINT], given a quarter of a second, and killed if it is still
    there. *)
Definition terminate (lt : Process) : M unit :=
  os_kill_pid (pid lt) SIGINT ;;
  Process_join lt 250 ;;
  alive <- Process_is_alive lt ;;
  if alive then
    os_kill_pid (pid lt) SIGKILL ;;
    emit (EPrint MsgSigkilledChild)
  else ret tt.

(** [RGBd.cleanup] *)
Definition cleanup (self : RGBd) : M unit :=
  (if truthy (blank_on_exit self) then
     st <- attr "strip" (strip self) ;;
     blank_strip st
   else ret tt) ;;
  lt <- attr "listener_thread" (listener_thread self) ;;
  terminate lt ;;
  try_except
    (path <- attr "daemon_pidfile" (daemon_pidfile self) ;;
     os_remove path)
    ((is_FileNotFoundError, fun _ => ret tt) :: nil) ;;
  t <- clock ;;
  emit (EPrint (MsgExited t)) ;;
  emit (EClose Stdin) ;;
  emit (EClose Stdout) ;;
  emit (EClose Stderr) ;;
  sys_exit 0.

(** One of the two [os.fork] calls of [daemonize] with its handler. *)
Definition fork_stage (failed : exn -> message) : M unit :=
  try_except
    (child <- os_fork ;;
     if 0 <? child then sys_exit 0 else ret tt)
    ((is_OSError, fun e => emit (EStderr (failed e)) ;; sys_exit 1) :: nil).

(** [open(path, mode)] of one of the three streams; what it opens is not
    looked up in [files], and whether it can be opened is the
    environment's choice. *)
Definition open_stream (c : call) (name_path name_mode : string)
    (path mode : option string) : M (string * string) :=
  p <- attr name_path path ;;
  m <- attr name_mode mode ;;
  env_call c ;;
  ret (p, m).

(** [os.dup2(f.fileno(), sys.<stream>.fileno())] *)
Definition os_dup2 (f : string * string) (s : stream) : M unit :=
  env_call CDup2 ;; emit (ERedirect s (fst f) (snd f)).

(** [signal.signal(s, h)] *)
Definition signal_signal (s : signal) (h : handler) : M unit :=
  env_call CSignal ;; emit (EBind s h).

(** [RGBd.daemonize] *)
Definition daemonize (self : RGBd) : M unit :=
  if negb (truthy (do_daemonize self)) then ret tt
  else
    fork_stage MsgFirstForkFailed ;;
    dir <- attr "daemon_chdir" (daemon_chdir self) ;;
    env_call CChdir ;; emit (EChdir dir) ;;
    env_call CSetsid ;; emit ESetsid ;;
    env_call CUmask ;; emit (EUmask 0) ;;
    fork_stage MsgSecondForkFailed ;;
    emit (EFlush Stdout) ;;
    emit (EFlush Stderr) ;;
    stdin <- open_stream COpenStdin "daemon_stdin" "daemon_in_md"
               (daemon_stdin self) (daemon_in_md self) ;;
    stdout <- open_stream COpenStdout "daemon_stdout" "daemon_out_md"
                (daemon_stdout self) (daemon_out_md self) ;;
    stderr <- open_stream COpenStderr "daemon_stderr" "daemon_err_md"
                (daemon_stderr self) (daemon_err_md self) ;;
    os_dup2 stdin Stdin ;;
    os_dup2 stdout Stdout ;;
    os_dup2 stderr Stderr ;;
    signal_signal SIGINT HCleanup ;;
    signal_signal SIGTERM HCleanup ;;
    signal_signal SIGHUP HReload ;;
    path <- attr "daemon_pidfile" (daemon_pidfile self) ;;
    me <- (fun w => (Ret (own_pid w), w)) ;;
    write_file path (format_int me ++ newline)%string ;;
    t <- clock ;;
    env_call CPrint ;;
    emit (EPrint (MsgDaemonized t)).

(** The [try] block that opens [start] and [stop]:
    [pid = int(pidf.read().strip())], or [None] when the file is not
    there. *)
Definition read_pid (self : RGBd) : M (option Z) :=
  try_except
    (path <- attr "daemon_pidfile" (daemon_pidfile self) ;;
     text <- read_file path ;;
     match py_int (str_strip text) with
     | Some n => ret (Some n)
     | None => raise ValueError
     end)
    ((is_FileNotFoundError, fun _ => ret None) :: nil).

(** [if pid:] for [pid] an integer or [None] *)
Definition pid_truthy (p : option Z) : bool :=
  match p with
  | Some n => negb (n =? 0)
  | None => false
  end.

(** [RGBd.start] *)
Definition start (self : RGBd) : M unit :=
  p <- read_pid self ;;
  (if pid_truthy p then
     emit (EStderr (MsgPidfileExists (get p 0))) ;;
     sys_exit 1
   else ret tt) ;;
  daemonize self ;;
  run self ;;
  ret tt.

(** [RGBd.stop] *)
Definition stop (self : RGBd) (restart : bool) : M unit :=
  p <- read_pid self ;;
  if negb (pid_truthy p) then
    path <- attr "daemon_pidfile" (daemon_pidfile self) ;;
    there <- os_path_exists path ;;
    (if there then os_remove path else ret tt) ;;
    if restart then ret tt
    else
      emit (EStderr MsgNoPid) ;;
      ret tt
  else
    let target := get p 0 in
    isalive <- try_except
                 (os_kill target SIGTERM ;;
                  time_sleep 300 ;;
                  os_kill target SIGNULL ;;
                  ret true)
                 ((is_ProcessLookupError, fun _ => ret false)
                  :: (is_PermissionError,
                      fun _ => emit (EStderr (MsgUnableToKill target)) ;; sys_exit 1)
                  :: nil) ;;
    if isalive : bool then
      emit (EStderr MsgHung) ;;
      sys_exit 1
    else
      path <- attr "daemon_pidfile" (daemon_pidfile self) ;;
      there <- os_path_exists path ;;
      (if there then os_remove path else ret tt) ;;
      ret tt.

(** [RGBd.restart] *)
Definition restart (self : RGBd) : M unit :=
  stop self true ;;
  start self.

(** [RGBd.reload] *)
Definition reload (self : RGBd) : M unit :=
  restart self.

(** ** Situations the statements below speak of *)

(** The events a call added to the log. *)
Definition emitted (w w' : World) : list event := drop (length (log w)) (log w').

(** Target [t] names a process that signals can still reach. *)
Definition process_exists (w : World) (t : Z) : bool :=
  match procs w !! t with
  | Some p => negb (gone w p)
  | None => false
  end.

(** Process [p] is alive [ms] milliseconds from now once signal [s] has
    reached it now. *)
Definition outlives (w : World) (s : signal) (ms : N) (p : proc) : bool :=
  negb (dead (with_now w (now w + ms)%N) (if dead w p then p else deliver (now w) s p)).

(** The target is a live process that the caller may signal and that is
    still alive 300 ms after a [SIGTERM] sent now. *)
Definition hung (w : World) (t : Z) : Prop :=
  exists p, procs w !! t = Some p /\ may_signal p = true /\ dead w p = false /\
            outlives w SIGTERM 300 p = true.

(** The handle is that of a started child of ours which was not reaped
    yet. *)
Definition child_of (w : World) (lt : Process) (c : Z) (p : proc) : Prop :=
  pid lt = Some c /\ fits_int c = true /\ procs w !! c = Some p /\
  is_child p = true /\ may_signal p = true.


(** The step of [cleanup] before the child is dealt with, and the steps
    after it. *)
Definition cleanup_blank (self : RGBd) : M unit :=
  if truthy (blank_on_exit self) then
    st <- attr "strip" (strip self) ;;
    blank_strip st
  else ret tt.

Definition cleanup_release (self : RGBd) : M unit :=
  try_except
    (path <- attr "daemon_pidfile" (daemon_pidfile self) ;;
     os_remove path)
    ((is_FileNotFoundError, fun _ => ret tt) :: nil) ;;
  t <- clock ;;
  emit (EPrint (MsgExited t)) ;;
  emit (EClose Stdin) ;;
  emit (EClose Stdout) ;;
  emit (EClose Stderr) ;;
  sys_exit 0.

(** The log of [cleanup_release] after the pidfile step. *)
Definition release_events (w : World) : list event :=
  EPrint (MsgExited (now w)) :: EClose Stdin :: EClose Stdout :: EClose Stderr :: nil.

(** ** Sample configurations and machines *)

Definition conf_default : Conf :=
  {| c_blank_on_exit := None; c_daemonize := None; c_daemon := None |}.

Definition conf_blanking : Conf :=
  {| c_blank_on_exit := Some (PBool true); c_daemonize := None; c_daemon := None |}.

Definition conf_foreground : Conf :=
  {| c_blank_on_exit := None; c_daemonize := Some (PBool false); c_daemon := None |}.

Definition no_faults : call -> option exn := fun _ => None.

(** A listener that exits 10 ms after [SIGINT] or [SIGTERM]. *)
Definition prompt_child : proc :=
  {| may_signal := true; is_child := true;
     react := fun s => match s with
                       | SIGNULL => None
                       | SIGKILL => Some 0%N
                       | _ => Some 10%N
                       end;
     exit_at := None |}.

(** A listener that only [SIGKILL] ends, 5 ms after it was sent. *)
Definition deaf_child : proc :=
  {| may_signal := true; is_child := true;
     react := fun s => match s with SIGKILL => Some 5%N | _ => None end;
     exit_at := None |}.

(** A daemon of ours that does not react to [SIGTERM]. *)
Definition stuck_daemon : proc :=
  {| may_signal := true; is_child := false;
     react := fun s => match s with SIGKILL => Some 0%N | _ => None end;
     exit_at := None |}.

(** A process of another user. *)
Definition foreign_process : proc :=
  {| may_signal := false; is_child := false;
     react := fun s => match s with SIGKILL => Some 0%N | _ => None end;
     exit_at := None |}.

Definition machine (fs : gmap string string) (ps : gmap Z proc) (child : proc) : World :=
  {| now := 0; files := fs; procs := ps; own_pid := 100;
     forks := InChild 101 :: InChild 102 :: nil;
     next_child := (103, child); faults := no_faults;
     py_major := 3; uid := 1000; euid := 1000; gid := 1000; log := nil |}.

Definition pidfile_with (text : string) : gmap string string :=
  {[ "/tmp/rgbd.pid" := text ]}.

(** A machine on which the caller may not delete files: [os.remove] of a
    file that is there raises [PermissionError]. *)
Definition undeletable : call -> option exn :=
  fun c => match c with CRemove => Some PermissionError | _ => None end.

Definition machine_undeletable (fs : gmap string string) (ps : gmap Z proc) : World :=
  {| now := 0; files := fs; procs := ps; own_pid := 100;
     forks := InChild 101 :: InChild 102 :: nil;
     next_child := (103, prompt_child); faults := undeletable;
     py_major := 3; uid := 1000; euid := 1000; gid := 1000; log := nil |}.

(** The daemon [start] leaves in its animation loop, and its machine. *)
Definition booted (cf : Conf) (child : proc) : res unit * World :=
  start (__init__ cf) (machine ∅ ∅ child).

Definition daemon_of (r : res unit * World) : RGBd :=
  match fst r with
  | Serving self => self
  | _ => __init__ conf_default
  end.

(** The log [terminate] leaves for child [c]: the interrupt, the wait,
    and, if it came to that, the kill and the note about it. *)
Definition terminate_events (c : Z) (waited : N) (escalated : bool) : list event :=
  EKill c SIGINT :: EJoin c waited ::
  (if escalated then EKill c SIGKILL :: EPrint MsgSigkilledChild :: nil else nil).

(** If the output is to be blanked, the engine is there and blanks. *)
Definition can_blank (self : RGBd) (w : World) : Prop :=
  truthy (blank_on_exit self) = true ->
  strip self <> None /\ faults w CBlankStrip = None.

(** ** Situations of the further statements *)

(** The number a run of decimal digits stands for, read from the left on
    top of [acc]. *)
Fixpoint uint_value (acc : Z) (d : Decimal.uint) : Z :=
  match d with
  | Decimal.Nil => acc
  | Decimal.D0 l => uint_value (10 * acc + 0) l
  | Decimal.D1 l => uint_value (10 * acc + 1) l
  | Decimal.D2 l => uint_value (10 * acc + 2) l
  | Decimal.D3 l => uint_value (10 * acc + 3) l
  | Decimal.D4 l => uint_value (10 * acc + 4) l
  | Decimal.D5 l => uint_value (10 * acc + 5) l
  | Decimal.D6 l => uint_value (10 * acc + 6) l
  | Decimal.D7 l => uint_value (10 * acc + 7) l
  | Decimal.D8 l => uint_value (10 * acc + 8) l
  | Decimal.D9 l => uint_value (10 * acc + 9) l
  end.

(** No character of [s] is white space. *)
Fixpoint no_space (s : string) : bool :=
  match s with
  | EmptyString => true
  | String c s' => negb (is_space c) && no_space s'
  end.

(** No call left to the environment fails. *)
Definition quiet (w : World) : Prop := forall c, faults w c = None.

(** The next two forks succeed and the model follows the child both
    times, first as process [a], then as process [b]. *)
Definition detaches (w : World) (a b : Z) (rest : list fork_result) : Prop :=
  forks w = InChild a :: InChild b :: rest.

(** [run] finds an interpreter and a user it accepts. *)
Definition fit_to_run (w : World) : Prop :=
  3 <= py_major w /\ uid w <> 0 /\ euid w <> 0 /\ gid w <> 0.

(** The configuration leaves daemonization on: its [daemonize] member, or
    the default [True], is a true value. *)
Definition daemonizing (cf : Conf) : Prop :=
  truthy (get (c_daemonize cf) (PBool true)) = true.

(** The path of the pidfile under configuration [cf]. *)
Definition pidfile_of (cf : Conf) : string :=
  get (c_pidfile (get (c_daemon cf) empty_daemon_conf)) "/tmp/rgbd.pid".

(** The path names its file from the root, so that it names the same
    file before and after the [os.chdir] of [daemonize]. *)
Definition absolute (path : string) : bool :=
  match path with
  | String c _ => Ascii.eqb c "/"
  | EmptyString => false
  end.

(** The configuration leaves the three streams on the null device, opened
    in the modes the constructor defaults to, and names its pidfile by an
    absolute path other than the null device: [daemonize] then creates or
    changes no file but the pidfile, and what is printed is discarded. *)
Definition plain_setup (cf : Conf) : bool :=
  let d := get (c_daemon cf) empty_daemon_conf in
  String.eqb (get (c_stdin d) os_devnull) os_devnull
  && String.eqb (get (c_stdin_mode d) "r") "r"
  && String.eqb (get (c_stdout d) os_devnull) os_devnull
  && String.eqb (get (c_stdout_mode d) "a") "a"
  && String.eqb (get (c_stderr d) os_devnull) os_devnull
  && String.eqb (get (c_stderr_mode d) "a") "a"
  && absolute (pidfile_of cf)
  && negb (String.eqb (pidfile_of cf) os_devnull).

(** The log of a [daemonize] that goes through, for the object made from
    [cf], at time [t]. *)
Definition daemonize_events (cf : Conf) (a b : Z) (t : N) : list event :=
  let d := get (c_daemon cf) empty_daemon_conf in
  EFork (InChild a)
  :: EChdir (get (c_working_dir d) "/")
  :: ESetsid
  :: EUmask 0
  :: EFork (InChild b)
  :: EFlush Stdout
  :: EFlush Stderr
  :: ERedirect Stdin (get (c_stdin d) os_devnull) (get (c_stdin_mode d) "r")
  :: ERedirect Stdout (get (c_stdout d) os_devnull) (get (c_stdout_mode d) "a")
  :: ERedirect Stderr (get (c_stderr d) os_devnull) (get (c_stderr_mode d) "a")
  :: EBind SIGINT HCleanup
  :: EBind SIGTERM HCleanup
  :: EBind SIGHUP HReload
  :: EWrite (pidfile_of cf) (format_int b ++ newline)
  :: EPrint (MsgDaemonized t)
  :: nil.

(** The machine a [daemonize] that goes through leaves. *)
Definition daemonized (cf : Conf) (a b : Z) (rest : list fork_result) (w : World) : World :=
  {| now := now w;
     files := <[pidfile_of cf := (format_int b ++ newline)%string]> (files w);
     procs := procs w; own_pid := b; forks := rest; next_child := next_child w;
     faults := faults w; py_major := py_major w;
     uid := uid w; euid := euid w; gid := gid w;
     log := (log w ++ daemonize_events cf a b (now w))%list |}.

(** The daemon object [run] leaves in the animation loop: the one it was
    given, with its queue, its listener [c] and its engine. *)
Definition serving (self : RGBd) (c : Z) : RGBd :=
  set_strip (set_listener_thread (set_queue self) {| pid := Some c |}) StripObject.

(** The machine after [Process.start()] has created the next child. *)
Definition spawned (w : World) : World :=
  with_event (with_procs w (<[fst (next_child w) := snd (next_child w)]> (procs w)))
             (ESpawn (fst (next_child w))).

(** The interpreter is one [run] accepts and the user is root, by its
    user id, its effective user id or its group id. *)
Definition run_as_root (w : World) : Prop :=
  3 <= py_major w /\ (uid w = 0 \/ euid w = 0 \/ gid w = 0).

(** [run] is stopped by one of its two checks. *)
Definition unfit_to_run (w : World) : Prop :=
  py_major w < 3 \/ uid w = 0 \/ euid w = 0 \/ gid w = 0.

(** The machine after [stop] has ended the daemon [p] that the pidfile
    at [path] named as [n]: the signal, the 300 ms, the removal. *)
Definition stopped (w : World) (n : Z) (p : proc) (path : string) : World :=
  let w1 := with_event (with_procs w (<[n := deliver (now w) SIGTERM p]> (procs w)))
                       (EKill n SIGTERM) in
  let w2 := with_event (with_now w1 (now w + 300)%N) (ESleep 300) in
  with_event (with_files w2 (delete path (files w))) (ERemove path).

(** A daemon of some parent other than the caller, alive, which the
    caller may signal and which is gone within 300 ms of a [SIGTERM]. *)
Definition responsive (w : World) (n : Z) (p : proc) : Prop :=
  procs w !! n = Some p /\ may_signal p = true /\ is_child p = false /\
  dead w p = false /\ outlives w SIGTERM 300 p = false.

(** *** What a call is confined to

    [confined P Q m w]: run from [w], the computation [m] only adds to the
    log, every event it adds satisfies [P], and every file whose path
    satisfies [Q] is the same afterwards. *)
Definition confined {A : Type} (P : event -> Prop) (Q : string -> Prop)
    (m : M A) (w : World) : Prop :=
  exists evs, log (snd (m w)) = (log w ++ evs)%list /\ Forall P evs /\
    forall q, Q q -> files (snd (m w)) !! q = files w !! q.

(** The paths other than the pidfile of [self]. *)
Definition not_pidfile (self : RGBd) (q : string) : Prop := daemon_pidfile self <> Some q.

(** What [stop] may do, for the object [self] on the machine [w]: signal
    the process the pidfile names, with [SIGTERM] or the null signal,
    sleep its 300 ms, remove the pidfile, write to the error stream. *)
Definition stop_event (self : RGBd) (w : World) (e : event) : Prop :=
  match e with
  | EKill t s => fst (read_pid self w) = Ret (Some t) /\ (s = SIGTERM \/ s = SIGNULL)
  | ESleep ms => ms = 300%N
  | ERemove q => daemon_pidfile self = Some q
  | EStderr _ => True
  | _ => False
  end.

(** What [cleanup] may do: blank the output, signal the listener of
    [self] with [SIGINT] or [SIGKILL], join it, remove the pidfile, print,
    close the streams. *)
Definition cleanup_event (self : RGBd) (e : event) : Prop :=
  match e with
  | EBlank => truthy (blank_on_exit self) = true
  | EKill t s =>
      (exists lt, listener_thread self = Some lt /\ pid lt = Some t) /\
      (s = SIGINT \/ s = SIGKILL)
  | EJoin c _ => exists lt, listener_thread self = Some lt /\ pid lt = Some c
  | ERemove q => daemon_pidfile self = Some q
  | EPrint _ | EClose _ => True
  | _ => False
  end.

(** What [start] may do: everything but signal, sleep, join, blank,
    remove a file or close a stream; the one file it may write is the
    pidfile. *)
Definition start_event (self : RGBd) (e : event) : Prop :=
  match e with
  | EKill _ _ | ESleep _ | EJoin _ _ | EBlank | ERemove _ | EClose _ => False
  | EWrite q _ => daemon_pidfile self = Some q
  | _ => True
  end.

(** The configuration turns daemonization off by a value that is false
    without being equal to [False]: [null], [""], [[]] or [{}]. *)
Definition foreground (cf : Conf) : Prop :=
  truthy (get (c_daemonize cf) (PBool true)) = false /\
  eq_False (get (c_daemonize cf) (PBool true)) = false.

(** The log of [daemonize] up to its second fork. *)
Definition first_stage_events (cf : Conf) (a : Z) : list event :=
  EFork (InChild a)
  :: EChdir (get (c_working_dir (get (c_daemon cf) empty_daemon_conf)) "/")
  :: ESetsid :: EUmask 0 :: nil.

Definition conf_null_daemonize : Conf :=
  {| c_blank_on_exit := None; c_daemonize := Some PNone; c_daemon := None |}.

(** A daemon that exits 50 ms after [SIGTERM]. *)
Definition obedient_daemon : proc :=
  {| may_signal := true; is_child := false;
     react := fun s => match s with
                       | SIGTERM => Some 50%N
                       | SIGKILL => Some 0%N
                       | _ => None
                       end;
     exit_at := None |}.

Definition machine_of_root (fs : gmap string string) : World :=
  {| now := 0; files := fs; procs := ∅; own_pid := 100;
     forks := InChild 101 :: InChild 102 :: nil;
     next_child := (103, prompt_child); faults := no_faults;
     py_major := 3; uid := 0; euid := 0; gid := 0; log := nil |}.

Definition machine_forking (fk : list fork_result) : World :=
  {| now := 0; files := ∅; procs := ∅; own_pid := 100; forks := fk;
     next_child := (103, prompt_child); faults := no_faults;
     py_major := 3; uid := 1000; euid := 1000; gid := 1000; log := nil |}.

(** ** Reading the pidfile *)

Example py_int_pidfile_line : py_int (str_strip ("4242" ++ newline)) = Some 4242.
Proof. reflexivity. Qed.

Example py_int_signed_and_underscored :
  py_int " +1_000 " = Some 1000 /\ py_int "-17" = Some (-17) /\ py_int "007" = Some 7.
Proof. repeat split. Qed.

Example py_int_rejects :
  py_int "" = None /\ py_int "12 34" = None /\ py_int "1__0" = None /\
  py_int "_1" = None /\ py_int "1_" = None /\ py_int "+" = None /\
  py_int "- 1" = None /\ py_int "0x10" = None /\ py_int "1.5" = None.
Proof. repeat split. Qed.

Lemma read_pid_no_attr self w :
  daemon_pidfile self = None ->
  read_pid self w = (Raise (AttributeError "daemon_pidfile"), w).
Proof. intros H. unfold read_pid, try_except, bind, attr. rewrite H. reflexivity. Qed.

Lemma read_pid_absent self w path :
  daemon_pidfile self = Some path -> files w !! path = None ->
  read_pid self w = (Ret None, w).
Proof.
  intros H F. unfold read_pid, try_except, bind, attr, read_file. rewrite H. simpl.
  rewrite F. reflexivity.
Qed.

Lemma read_pid_present self w path text :
  daemon_pidfile self = Some path -> files w !! path = Some text ->
  read_pid self w =
    (match py_int (str_strip text) with
     | Some n => Ret (Some n)
     | None => Raise ValueError
     end, w).
Proof.
  intros H F. unfold read_pid, try_except, bind, attr, read_file. rewrite H. simpl.
  rewrite F. destruct (py_int (str_strip text)); reflexivity.
Qed.

Lemma read_pid_world self w : snd (read_pid self w) = w.
Proof.
  destruct (daemon_pidfile self) as [path|] eqn:H.
  - destruct (files w !! path) as [text|] eqn:F.
    + rewrite (read_pid_present _ _ _ _ H F). reflexivity.
    + rewrite (read_pid_absent _ _ _ H F). reflexivity.
  - rewrite (read_pid_no_attr _ _ H). reflexivity.
Qed.

Lemma read_pid_eq self w r :
  fst (read_pid self w) = r -> read_pid self w = (r, w).
Proof.
  intros <-. rewrite <- (read_pid_world self w) at 3. apply surjective_pairing.
Qed.

(** What [start] does once the pidfile check lets it pass. *)
Lemma start_passes self w p :
  fst (read_pid self w) = Ret p -> pid_truthy p = false ->
  start self w = (daemonize self ;; run self ;; ret tt) w.
Proof.
  intros R T. unfold start, bind at 1. rewrite (read_pid_eq _ _ _ R), T. reflexivity.
Qed.

Lemma start_refuses self w n :
  fst (read_pid self w) = Ret (Some n) -> n <> 0 ->
  start self w = (Exit 1, with_event w (EStderr (MsgPidfileExists n))).
Proof.
  intros R T. unfold start, bind at 1. rewrite (read_pid_eq _ _ _ R). simpl.
  destruct (Z.eqb_spec n 0) as [|_]; [contradiction|]. reflexivity.
Qed.

Lemma emitted_app w w' evs : log w' = (log w ++ evs)%list -> emitted w w' = evs.
Proof. intros E. unfold emitted. rewrite E. apply drop_app_length. Qed.

(** ** Stepping through a computation *)

Lemma bind_Ret {A B : Type} (m : M A) (k : A -> M B) w a w' :
  m w = (Ret a, w') -> bind m k w = k a w'.
Proof. intros E. unfold bind. rewrite E. reflexivity. Qed.

Lemma bind_Raise {A B : Type} (m : M A) (k : A -> M B) w e w' :
  m w = (Raise e, w') -> bind m k w = (Raise e, w').
Proof. intros E. unfold bind. rewrite E. reflexivity. Qed.

Lemma bind_Exit {A B : Type} (m : M A) (k : A -> M B) w n w' :
  m w = (Exit n, w') -> bind m k w = (Exit n, w').
Proof. intros E. unfold bind. rewrite E. reflexivity. Qed.

Lemma try_Ret {A : Type} (m : M A) cl w a w' :
  m w = (Ret a, w') -> try_except m cl w = (Ret a, w').
Proof. intros E. unfold try_except. rewrite E. reflexivity. Qed.

Lemma try_Raise {A : Type} (m : M A) cl w e w' :
  m w = (Raise e, w') -> try_except m cl w = handle cl e w'.
Proof. intros E. unfold try_except. rewrite E. reflexivity. Qed.

Lemma os_kill_ok w t s p :
  fits_int t = true -> procs w !! t = Some p -> gone w p = false ->
  may_signal p = true ->
  os_kill t s w =
    (Ret tt,
     with_event (with_procs w (<[t := if dead w p then p else deliver (now w) s p]> (procs w)))
                (EKill t s)).
Proof. intros I L G S. unfold os_kill. rewrite I, L, G, S. reflexivity. Qed.

Lemma os_kill_missing w t s :
  fits_int t = true -> process_exists w t = false ->
  os_kill t s w = (Raise ProcessLookupError, w).
Proof.
  intros I X. unfold os_kill, process_exists in *. rewrite I. simpl.
  destruct (procs w !! t) as [p|]; [|reflexivity].
  apply negb_false_iff in X. rewrite X. reflexivity.
Qed.

Lemma os_kill_denied w t s p :
  fits_int t = true -> procs w !! t = Some p -> gone w p = false ->
  may_signal p = false ->
  os_kill t s w = (Raise PermissionError, w).
Proof. intros I L G S. unfold os_kill. rewrite I, L, G, S. reflexivity. Qed.

Lemma deliver_may_signal t s p : may_signal (deliver t s p) = may_signal p.
Proof. unfold deliver. destruct s; try reflexivity; destruct (react p _); reflexivity. Qed.

Lemma deliver_is_child t s p : is_child (deliver t s p) = is_child p.
Proof. unfold deliver. destruct s; try reflexivity; destruct (react p _); reflexivity. Qed.

(** ** [stop] *)

(** The branch of [stop] for a pid that is [None] or 0. *)
Lemma stop_not_running self w p path r :
  fst (read_pid self w) = Ret p -> pid_truthy p = false ->
  daemon_pidfile self = Some path ->
  files w !! path = None \/ faults w CRemove = None ->
  stop self r w =
    (Ret tt,
     let w1 := match files w !! path with
               | Some _ => with_event (with_files w (delete path (files w))) (ERemove path)
               | None => w
               end in
     if r then w1 else with_event w1 (EStderr MsgNoPid)).
Proof.
  intros R T H Q. unfold stop, bind at 1. rewrite (read_pid_eq _ _ _ R), T. simpl.
  unfold bind, attr, os_path_exists, os_remove, ret, emit. rewrite H. simpl.
  destruct (files w !! path) eqn:F; simpl; [rewrite F|destruct r; reflexivity].
  destruct Q as [Q|Q]; [discriminate|]. rewrite Q. destruct r; reflexivity.
Qed.

(** The same branch when the pidfile is there and may not be deleted:
    the exception of [os.remove] leaves [stop]. *)
Lemma stop_not_running_undeletable self w p path text e r :
  fst (read_pid self w) = Ret p -> pid_truthy p = false ->
  daemon_pidfile self = Some path ->
  files w !! path = Some text -> faults w CRemove = Some e ->
  stop self r w = (Raise e, w).
Proof.
  intros R T H F Q. unfold stop, bind at 1. rewrite (read_pid_eq _ _ _ R), T. simpl.
  unfold bind, attr, os_path_exists, os_remove, ret, emit. rewrite H. simpl.
  rewrite F. simpl. rewrite F, Q. reflexivity.
Qed.

(** The branch of [stop] for a pid other than 0, up to the outcome of the
    signalling block. *)
Lemma stop_signals self w n r :
  fst (read_pid self w) = Ret (Some n) -> n <> 0 ->
  stop self r w =
    (isalive <- try_except
                  (os_kill n SIGTERM ;; time_sleep 300 ;; os_kill n SIGNULL ;; ret true)
                  ((is_ProcessLookupError, fun _ => ret false)
                   :: (is_PermissionError,
                       fun _ => emit (EStderr (MsgUnableToKill n)) ;; sys_exit 1)
                   :: nil) ;;
     if isalive : bool then emit (EStderr MsgHung) ;; sys_exit 1
     else
       path <- attr "daemon_pidfile" (daemon_pidfile self) ;;
       there <- os_path_exists path ;;
       (if there then os_remove path else ret tt) ;;
       ret tt) w.
Proof.
  intros R T. unfold stop, bind at 1. rewrite (read_pid_eq _ _ _ R). simpl.
  destruct (Z.eqb_spec n 0) as [|_]; [contradiction|]. reflexivity.
Qed.

(** Removing the pidfile when it is there, as [stop] does at its end. *)
Lemma remove_if_there self w path text :
  daemon_pidfile self = Some path -> files w !! path = Some text ->
  faults w CRemove = None ->
  (path <- attr "daemon_pidfile" (daemon_pidfile self) ;;
   there <- os_path_exists path ;;
   (if there then os_remove path else ret tt) ;;
   ret tt) w
  = (Ret tt, with_event (with_files w (delete path (files w))) (ERemove path)).
Proof.
  intros H F Q. rewrite H. unfold bind, attr, ret, os_path_exists, os_remove.
  rewrite F. simpl. rewrite F, Q. reflexivity.
Qed.

(** The same steps over a pidfile that may not be deleted. *)
Lemma remove_undeletable self w path text e :
  daemon_pidfile self = Some path -> files w !! path = Some text ->
  faults w CRemove = Some e ->
  (path <- attr "daemon_pidfile" (daemon_pidfile self) ;;
   there <- os_path_exists path ;;
   (if there then os_remove path else ret tt) ;;
   ret tt) w
  = (Raise e, w).
Proof.
  intros H F Q. rewrite H. unfold bind, attr, ret, os_path_exists, os_remove.
  rewrite F. simpl. rewrite F, Q. reflexivity.
Qed.

Lemma stop_stale_pid self w path text n r :
  daemon_pidfile self = Some path -> files w !! path = Some text ->
  py_int (str_strip text) = Some n -> n <> 0 -> fits_int n = true ->
  process_exists w n = false -> faults w CRemove = None ->
  stop self r w = (Ret tt, with_event (with_files w (delete path (files w))) (ERemove path)).
Proof.
  intros H F P N I X Q.
  assert (R : fst (read_pid self w) = Ret (Some n))
    by (rewrite (read_pid_present _ _ _ _ H F), P; reflexivity).
  rewrite (stop_signals _ _ _ _ R N).
  rewrite (bind_Ret _ _ w false w).
  - apply (remove_if_there _ _ _ _ H F Q).
  - rewrite (try_Raise _ _ w ProcessLookupError w); [reflexivity|].
    apply bind_Raise, os_kill_missing; assumption.
Qed.

(** A stale pidfile that may not be deleted: the exception of
    [os.remove] leaves [stop] and the pidfile stays. *)
Lemma stop_stale_undeletable self w path text n e r :
  daemon_pidfile self = Some path -> files w !! path = Some text ->
  py_int (str_strip text) = Some n -> n <> 0 -> fits_int n = true ->
  process_exists w n = false -> faults w CRemove = Some e ->
  stop self r w = (Raise e, w).
Proof.
  intros H F P N I X Q.
  assert (R : fst (read_pid self w) = Ret (Some n))
    by (rewrite (read_pid_present _ _ _ _ H F), P; reflexivity).
  rewrite (stop_signals _ _ _ _ R N).
  rewrite (bind_Ret _ _ w false w).
  - apply (remove_undeletable _ _ _ _ _ H F Q).
  - rewrite (try_Raise _ _ w ProcessLookupError w); [reflexivity|].
    apply bind_Raise, os_kill_missing; assumption.
Qed.

Lemma stop_hung_once self w path text n r :
  daemon_pidfile self = Some path -> files w !! path = Some text ->
  py_int (str_strip text) = Some n -> n <> 0 -> fits_int n = true ->
  hung w n ->
  fst (stop self r w) = Exit 1 /\
  emitted w (snd (stop self r w))
    = EKill n SIGTERM :: ESleep 300 :: EKill n SIGNULL :: EStderr MsgHung :: nil /\
  now (snd (stop self r w)) = (now w + 300)%N /\
  files (snd (stop self r w)) = files w.
Proof.
  intros H F P N I (p & L & S & D & O).
  assert (R : fst (read_pid self w) = Ret (Some n))
    by (rewrite (read_pid_present _ _ _ _ H F), P; reflexivity).
  rewrite (stop_signals _ _ _ _ R N).
  unfold outlives in O. rewrite D in O. apply negb_true_iff in O.
  set (p1 := deliver (now w) SIGTERM p) in *.
  set (w1 := with_event (with_procs w (<[n := p1]> (procs w))) (EKill n SIGTERM)).
  set (w2 := with_event (with_now w1 (now w1 + 300)%N) (ESleep 300)).
  set (w3 := with_event (with_procs w2 (<[n := p1]> (procs w2))) (EKill n SIGNULL)).
  assert (K1 : os_kill n SIGTERM w = (Ret tt, w1)).
  { rewrite (os_kill_ok _ _ _ p I L); [rewrite D; reflexivity| |assumption].
    unfold gone. rewrite D. reflexivity. }
  assert (K3 : os_kill n SIGNULL w2 = (Ret tt, w3)).
  { assert (D2 : dead w2 p1 = false) by exact O.
    rewrite (os_kill_ok _ _ _ p1 I).
    - rewrite D2. reflexivity.
    - apply lookup_insert_eq.
    - unfold gone. rewrite D2. reflexivity.
    - unfold p1. rewrite deliver_may_signal. assumption. }
  erewrite bind_Ret with (a := true) (w' := w3).
  - simpl. repeat split. apply emitted_app. simpl. rewrite <- !app_assoc. reflexivity.
  - apply try_Ret. rewrite (bind_Ret _ _ _ _ _ K1).
    erewrite bind_Ret; [|reflexivity]. fold w2.
    rewrite (bind_Ret _ _ _ _ _ K3). reflexivity.
Qed.

(** The [except PermissionError] branch of [stop]: a process the caller
    may not signal is reported at once, without the grace period. *)
Lemma stop_denied self w path text n r p :
  daemon_pidfile self = Some path -> files w !! path = Some text ->
  py_int (str_strip text) = Some n -> n <> 0 -> fits_int n = true ->
  procs w !! n = Some p -> gone w p = false -> may_signal p = false ->
  stop self r w = (Exit 1, with_event w (EStderr (MsgUnableToKill n))).
Proof.
  intros H F P N I L G S.
  assert (R : fst (read_pid self w) = Ret (Some n))
    by (rewrite (read_pid_present _ _ _ _ H F), P; reflexivity).
  rewrite (stop_signals _ _ _ _ R N).
  apply bind_Exit.
  rewrite (try_Raise _ _ w PermissionError w); [reflexivity|].
  apply bind_Raise, (os_kill_denied w n SIGTERM p); assumption.
Qed.

(** ** [cleanup] *)

Lemma os_kill_cases t s w :
  (exists e, os_kill t s w = (Raise e, w)) \/
  (exists p', os_kill t s w =
     (Ret tt, with_event (with_procs w (<[t := p']> (procs w))) (EKill t s))).
Proof.
  unfold os_kill. destruct (fits_int t); simpl; [|eauto].
  destruct (procs w !! t) as [p|]; [|eauto].
  destruct (gone w p); [eauto|]. destruct (may_signal p); simpl; eauto.
Qed.

Lemma join_cases c tm w :
  exists w', Process_join {| pid := Some c |} tm w = (Ret tt, w') /\
    files w' = files w /\
    exists waited, log w' = (log w ++ EJoin c waited :: nil)%list.
Proof.
  unfold Process_join. simpl. destruct (procs w !! c) as [p|]; [|eauto 6].
  destruct (exit_at p) as [t|]; [|eauto 6].
  destruct (t <=? now w + tm)%N; eauto 6.
Qed.

Lemma is_alive_cases c w :
  exists b w', Process_is_alive {| pid := Some c |} w = (Ret b, w') /\
    files w' = files w /\ log w' = log w /\
    (b = false -> procs w' !! c = None).
Proof.
  unfold Process_is_alive. simpl. destruct (procs w !! c) as [p|] eqn:L.
  - destruct (dead w p).
    + exists false. eexists. repeat split. intros _. apply lookup_delete_eq.
    + exists true. eexists. repeat split. discriminate.
  - exists false. eexists. repeat split. auto.
Qed.

(** How [terminate] can end, for any handle and any state of the world:
    it returns after the child was seen gone, or after the kill; if it
    raises, no later step of it has run. *)
(** What the environment lets fail is the same after [terminate]. *)
Lemma bind_faults {A B} (m : M A) (k : A -> M B) w :
  faults (snd (m w)) = faults w ->
  (forall a w1, faults (snd (k a w1)) = faults w1) ->
  faults (snd (bind m k w)) = faults w.
Proof.
  intros Hm Hk. unfold bind. destruct (m w) as [[a|e|n|s] w1]; simpl in *; try assumption.
  rewrite Hk. assumption.
Qed.

Lemma os_kill_faults t s w : faults (snd (os_kill t s w)) = faults w.
Proof.
  unfold os_kill. destruct (negb (fits_int t)); [reflexivity|].
  destruct (procs w !! t) as [p|]; [|reflexivity].
  destruct (gone w p); [reflexivity|]. destruct (negb (may_signal p)); reflexivity.
Qed.

Lemma join_faults c tm w : faults (snd (Process_join {| pid := Some c |} tm w)) = faults w.
Proof.
  unfold Process_join. simpl. destruct (procs w !! c) as [p|]; [|reflexivity].
  destruct (exit_at p) as [t|]; [|reflexivity].
  destruct (t <=? now w + tm)%N; reflexivity.
Qed.

Lemma is_alive_faults c w : faults (snd (Process_is_alive {| pid := Some c |} w)) = faults w.
Proof.
  unfold Process_is_alive. simpl. destruct (procs w !! c) as [p|]; [|reflexivity].
  destruct (dead w p); reflexivity.
Qed.

Lemma terminate_faults lt w : faults (snd (terminate lt w)) = faults w.
Proof.
  unfold terminate, os_kill_pid. destruct lt as [[c|]]; [|reflexivity]. simpl pid.
  apply bind_faults; [apply os_kill_faults|]. intros _ w1.
  apply bind_faults; [apply join_faults|]. intros _ w2.
  apply bind_faults; [apply is_alive_faults|]. intros [] w3; [|reflexivity].
  apply bind_faults; [apply os_kill_faults|]. reflexivity.
Qed.

Lemma terminate_shape lt w :
  exists r w', terminate lt w = (r, w') /\ files w' = files w /\
    match r with
    | Ret _ =>
        exists c waited, pid lt = Some c /\
          ((log w' = (log w ++ EKill c SIGINT :: EJoin c waited :: nil)%list /\
            procs w' !! c = None) \/
           log w' = (log w ++ EKill c SIGINT :: EJoin c waited :: EKill c SIGKILL
                           :: EPrint MsgSigkilledChild :: nil)%list)
    | Raise _ =>
        log w' = log w \/
        exists c waited, log w' = (log w ++ EKill c SIGINT :: EJoin c waited :: nil)%list
    | _ => False
    end.
Proof.
  unfold terminate. destruct lt as [[c|]]; simpl.
  2:{ eexists _, _. split; [reflexivity|]. split; [reflexivity|]. simpl. auto. }
  destruct (os_kill_cases c SIGINT w) as [[e K]|[p1 K]].
  { rewrite (bind_Raise _ _ _ _ _ K). eexists _, _. repeat split. simpl. auto. }
  rewrite (bind_Ret _ _ _ _ _ K).
  set (w1 := with_event _ _).
  destruct (join_cases c 250 w1) as (w2 & J & F2 & wt & L2).
  rewrite (bind_Ret _ _ _ _ _ J).
  destruct (is_alive_cases c w2) as (b & w3 & A & F3 & L3 & G).
  rewrite (bind_Ret _ _ _ _ _ A).
  assert (L3' : log w3 = (log w ++ EKill c SIGINT :: EJoin c wt :: nil)%list).
  { rewrite L3, L2. unfold w1. simpl. rewrite <- app_assoc. reflexivity. }
  assert (F3' : files w3 = files w) by (rewrite F3, F2; reflexivity).
  destruct b.
  - destruct (os_kill_cases c SIGKILL w3) as [[e K2]|[p2 K2]].
    + rewrite (bind_Raise _ _ _ _ _ K2). eexists _, _. repeat split; [assumption|].
      simpl. eauto.
    + rewrite (bind_Ret _ _ _ _ _ K2). eexists _, _. split; [reflexivity|].
      split; [assumption|]. exists c, wt. split; [reflexivity|]. right.
      simpl. rewrite L3', <- !app_assoc. reflexivity.
  - eexists _, _. split; [reflexivity|]. split; [assumption|].
    exists c, wt. split; [reflexivity|]. left. auto.
Qed.

Lemma cleanup_stages self :
  cleanup self =
    (cleanup_blank self ;;
     lt <- attr "listener_thread" (listener_thread self) ;;
     terminate lt ;;
     cleanup_release self).
Proof. reflexivity. Qed.

(** The last steps of [cleanup]: the pidfile is removed if it is there,
    its absence is passed over, and the process exits with status 0; only
    a missing [daemon_pidfile] attribute stops them, or a pidfile that may
    not be deleted. *)
Lemma cleanup_release_cases self w :
  match daemon_pidfile self with
  | None => cleanup_release self w = (Raise (AttributeError "daemon_pidfile"), w)
  | Some path =>
      files w !! path = None \/ faults w CRemove = None ->
      exists w', cleanup_release self w = (Exit 0, w') /\
        procs w' = procs w /\ now w' = now w /\
        files w' = delete path (files w) /\
        log w' = (log w ++ match files w !! path with
                           | Some _ => ERemove path :: release_events w
                           | None => release_events w
                           end)%list
  end.
Proof.
  unfold cleanup_release. destruct (daemon_pidfile self) as [path|]; [|reflexivity].
  intros Q.
  unfold try_except, bind, attr, ret, os_remove, clock, emit, sys_exit, release_events.
  simpl. destruct (files w !! path) eqn:F; simpl.
  - destruct Q as [Q|Q]; [discriminate|]. rewrite Q.
    eexists. split; [reflexivity|]. simpl. repeat split.
    rewrite <- !app_assoc. reflexivity.
  - eexists. split; [reflexivity|]. simpl. repeat split.
    + symmetry. apply delete_id. assumption.
    + rewrite <- !app_assoc. reflexivity.
Qed.

(** What the last steps of [cleanup] add to the log, whatever becomes of
    the removal: nothing, the closing steps, or the removal and the
    closing steps. *)
Lemma cleanup_release_shape self w :
  exists r w', cleanup_release self w = (r, w') /\ procs w' = procs w /\
    (log w' = log w \/
     log w' = (log w ++ release_events w)%list \/
     exists path, log w' = (log w ++ ERemove path :: release_events w)%list).
Proof.
  unfold cleanup_release. destruct (daemon_pidfile self) as [path|].
  2:{ eexists _, _. split; [reflexivity|]. split; [reflexivity|]. left. reflexivity. }
  unfold try_except, bind, attr, ret, os_remove, clock, emit, sys_exit, release_events.
  simpl. destruct (files w !! path) eqn:F; simpl.
  - destruct (faults w CRemove) as [e|] eqn:Q; simpl.
    + destruct (is_FileNotFoundError e); simpl.
      * eexists _, _. split; [reflexivity|]. split; [reflexivity|]. right. left.
        simpl. rewrite <- !app_assoc. reflexivity.
      * eexists _, _. split; [reflexivity|]. split; [reflexivity|]. left. reflexivity.
    + eexists _, _. split; [reflexivity|]. split; [reflexivity|]. right. right.
      exists path. simpl. rewrite <- !app_assoc. reflexivity.
  - eexists _, _. split; [reflexivity|]. split; [reflexivity|]. right. left.
    simpl. rewrite <- !app_assoc. reflexivity.
Qed.

Ltac by_index i :=
  repeat (destruct i as [|i]; simpl in *; try discriminate).

(** [cleanup] from the moment the output is blanked: a removal of the
    pidfile comes after the [SIGINT], and after the child was reaped or
    the [SIGKILL] was sent. *)
Lemma cleanup_child_before_release self w :
  let m := (lt <- attr "listener_thread" (listener_thread self) ;;
            terminate lt ;;
            cleanup_release self) in
  exists evs, log (snd (m w)) = (log w ++ evs)%list /\
    (forall e, evs !! 0%nat = Some e -> e <> EBlank) /\
    forall (i : nat) path, evs !! i = Some (ERemove path) ->
      exists lt c, listener_thread self = Some lt /\ pid lt = Some c /\
        (exists j : nat, (j < i)%nat /\ evs !! j = Some (EKill c SIGINT)) /\
        (procs (snd (m w)) !! c = None \/
         exists j : nat, (j < i)%nat /\ evs !! j = Some (EKill c SIGKILL)).
Proof.
  intros m. unfold m.
  destruct (listener_thread self) as [lt|] eqn:LT.
  2:{ exists nil. simpl. rewrite app_nil_r. repeat split; intros; discriminate. }
  rewrite (bind_Ret (attr "listener_thread" (Some lt)) _ w lt w eq_refl).
  destruct (terminate_shape lt w) as (r & w1 & T & F1 & S).
  destruct r as [[]|e|n|s]; try contradiction.
  - rewrite (bind_Ret _ _ _ _ _ T).
    destruct S as (c & wt & P & S).
    destruct (cleanup_release_shape self w1) as (r & w' & R & Pr & Lg).
    rewrite R. simpl.
    destruct Lg as [Lg|[Lg|(path & Lg)]];
      destruct S as [[L1 G]|L1]; rewrite L1, <- ?app_assoc in Lg; eexists;
        (split; [exact Lg|]); (split; [simpl; intros ? [= <-]; discriminate|]);
        intros i path' E; exists lt, c; (split; [reflexivity|]); (split; [assumption|]);
        unfold release_events in E; by_index i.
    + split; [exists 0%nat; split; [lia|reflexivity]|]. left. rewrite Pr. assumption.
    + split; [exists 0%nat; split; [lia|reflexivity]|].
      right. exists 2%nat. split; [lia|reflexivity].
  - rewrite (bind_Raise _ _ _ _ _ T). simpl.
    destruct S as [L1|(c & wt & L1)].
    + exists nil. rewrite app_nil_r. repeat split; [assumption| |]; intros; discriminate.
    + eexists. split; [exact L1|]. split; [simpl; intros ? [= <-]; discriminate|].
      intros i path' E. by_index i.
Qed.

Lemma cleanup_blank_cases self w :
  (exists e, cleanup_blank self w = (Raise e, w)) \/
  (truthy (blank_on_exit self) = true /\
   cleanup_blank self w = (Ret tt, with_event w EBlank)) \/
  (truthy (blank_on_exit self) = false /\ cleanup_blank self w = (Ret tt, w)).
Proof.
  unfold cleanup_blank. destruct (truthy (blank_on_exit self)); [|auto].
  destruct (strip self) as [st|]; [|left; eexists; reflexivity].
  unfold blank_strip, env_call, emit, attr, ret, bind.
  destruct (faults w CBlankStrip); [left; eexists; reflexivity|auto].
Qed.

Lemma join_exited c tm w p t :
  procs w !! c = Some p -> exit_at p = Some t -> (t <= now w + tm)%N ->
  Process_join {| pid := Some c |} tm w =
    (Ret tt, with_event (with_procs (with_now w (N.max (now w) t)) (delete c (procs w)))
                        (EJoin c (N.max (now w) t - now w)%N)).
Proof.
  intros L X Le. unfold Process_join. simpl. rewrite L, X.
  destruct (N.leb_spec t (now w + tm)); [reflexivity|lia].
Qed.

Lemma join_timeout c tm w p :
  procs w !! c = Some p -> dead (with_now w (now w + tm)%N) p = false ->
  Process_join {| pid := Some c |} tm w =
    (Ret tt, with_event (with_now w (now w + tm)%N) (EJoin c tm)).
Proof.
  intros L D. unfold Process_join. simpl. rewrite L. unfold dead in D. simpl in D.
  destruct (exit_at p); [rewrite D|]; reflexivity.
Qed.

Lemma is_alive_reaped c w :
  procs w !! c = None -> Process_is_alive {| pid := Some c |} w = (Ret false, w).
Proof. intros L. unfold Process_is_alive. simpl. rewrite L. reflexivity. Qed.

Lemma is_alive_living c w p :
  procs w !! c = Some p -> dead w p = false ->
  Process_is_alive {| pid := Some c |} w = (Ret true, w).
Proof. intros L D. unfold Process_is_alive. simpl. rewrite L, D. reflexivity. Qed.

(** The child of a running daemon under [terminate]: the call returns; a
    child that is gone within the 250 ms is reaped without more ado, any
    other is sent [SIGKILL] at the end of the 250 ms and the escalation is
    printed. *)
Lemma terminate_child w lt c p :
  child_of w lt c p ->
  exists w', terminate lt w = (Ret tt, w') /\ files w' = files w /\
    if outlives w SIGINT 250 p then
      now w' = (now w + 250)%N /\
      log w' = (log w ++ EKill c SIGINT :: EJoin c 250 :: EKill c SIGKILL
                      :: EPrint MsgSigkilledChild :: nil)%list
    else
      (now w <= now w' <= now w + 250)%N /\
      log w' = (log w ++ EKill c SIGINT :: EJoin c (now w' - now w) :: nil)%list /\
      procs w' !! c = None.
Proof.
  intros (P & I & L & C & S). destruct lt as [q]. simpl in P. subst q.
  assert (G : gone w p = false) by (unfold gone; rewrite C; apply andb_false_r).
  unfold terminate. simpl.
  rewrite (bind_Ret _ _ _ _ _ (os_kill_ok _ _ SIGINT _ I L G S)).
  unfold outlives. set (p1 := if dead w p then p else deliver (now w) SIGINT p).
  assert (S1 : may_signal p1 = true)
    by (unfold p1; destruct (dead w p); [|rewrite deliver_may_signal]; assumption).
  set (w1 := with_event _ _).
  assert (L1 : procs w1 !! c = Some p1) by apply lookup_insert_eq.
  change (dead (with_now w (now w + 250)%N) p1)
    with (dead (with_now w1 (now w1 + 250)%N) p1).
  destruct (dead (with_now w1 (now w1 + 250)%N) p1) eqn:D; simpl negb; cbv iota.
  - unfold dead in D. destruct (exit_at p1) as [t|] eqn:X; [|discriminate].
    apply N.leb_le in D. simpl in D.
    rewrite (bind_Ret _ _ _ _ _ (join_exited c 250 w1 p1 t L1 X D)).
    erewrite bind_Ret; [|apply is_alive_reaped; apply lookup_delete_eq].
    eexists. split; [reflexivity|]. simpl. repeat split; try lia.
    + rewrite <- app_assoc. reflexivity.
    + apply lookup_delete_eq.
  - rewrite (bind_Ret _ _ _ _ _ (join_timeout c 250 w1 p1 L1 D)).
    set (w2 := with_event _ _).
    assert (D2 : dead w2 p1 = false) by exact D.
    rewrite (bind_Ret _ _ _ _ _ (is_alive_living c w2 p1 L1 D2)).
    assert (G2 : gone w2 p1 = false) by (unfold gone; rewrite D2; reflexivity).
    rewrite (bind_Ret _ _ _ _ _ (os_kill_ok w2 c SIGKILL p1 I L1 G2 S1)).
    eexists. split; [reflexivity|]. simpl. repeat split.
    rewrite <- !app_assoc. reflexivity.
Qed.

(** ** The claims about [start] and [stop] *)

(** C1, as the code has it: for every configuration and every state of
    the pidfile in which reading it yields a pid other than 0, [start]
    writes its diagnostic to the error stream and exits with status 1;
    that message is all it does: no fork, no file or process touched. *)
Theorem start_refuses_nonzero_pid (cf : Conf) (w : World) (n : Z) :
  fst (read_pid (__init__ cf) w) = Ret (Some n) -> n <> 0 ->
  start (__init__ cf) w = (Exit 1, with_event w (EStderr (MsgPidfileExists n))) /\
  emitted w (snd (start (__init__ cf) w)) = EStderr (MsgPidfileExists n) :: nil /\
  files (snd (start (__init__ cf) w)) = files w /\
  procs (snd (start (__init__ cf) w)) = procs w.
Proof.
  intros R N. rewrite (start_refuses _ _ _ R N). repeat split.
  apply emitted_app. reflexivity.
Qed.

Lemma start_refuses_nonzero_pid_witness :
  start (__init__ conf_default) (machine (pidfile_with "4242") ∅ prompt_child)
  = (Exit 1, with_event (machine (pidfile_with "4242") ∅ prompt_child)
                        (EStderr (MsgPidfileExists 4242))).
Proof.
  apply (start_refuses_nonzero_pid conf_default
           (machine (pidfile_with "4242") ∅ prompt_child) 4242).
  - reflexivity.
  - lia.
Defined.

(** C1 as stated fails on a pidfile that holds [0]: reading it yields the
    pid 0, and [start] goes on to fork, rewrite the pidfile and serve. *)
Lemma start_passes_pid_zero :
  let w := machine (pidfile_with "0") ∅ prompt_child in
  fst (read_pid (__init__ conf_default) w) = Ret (Some 0) /\
  fst (start (__init__ conf_default) w) <> Exit 1 /\
  emitted w (snd (start (__init__ conf_default) w)) !! 0%nat = Some (EFork (InChild 101)) /\
  files (snd (start (__init__ conf_default) w)) !! "/tmp/rgbd.pid"
    = Some ("102" ++ newline)%string.
Proof. vm_compute. repeat split. discriminate. Qed.

(** C4, as the code has it: when the pidfile holds the pid of a process
    that does not exist and the caller may delete the pidfile, [stop]
    removes the pidfile and returns; it does not exit and writes nothing
    to the user: the removal is its only action.  When the pidfile may
    not be deleted, the exception of [os.remove], which no handler of
    [stop] covers, leaves [stop] and nothing is changed. *)
Theorem stop_clears_stale_pidfile (self : RGBd) (w : World) (path text : string)
    (n : Z) (r : bool) :
  daemon_pidfile self = Some path -> files w !! path = Some text ->
  py_int (str_strip text) = Some n -> n <> 0 -> fits_int n = true ->
  process_exists w n = false ->
  match faults w CRemove with
  | None =>
      fst (stop self r w) = Ret tt /\
      files (snd (stop self r w)) !! path = None /\
      emitted w (snd (stop self r w)) = ERemove path :: nil
  | Some e => stop self r w = (Raise e, w)
  end.
Proof.
  intros H F P N I X. destruct (faults w CRemove) as [e|] eqn:Q.
  - apply (stop_stale_undeletable _ _ _ _ _ _ _ H F P N I X Q).
  - rewrite (stop_stale_pid _ _ _ _ _ _ H F P N I X Q). simpl.
    repeat split.
    + apply lookup_delete_eq.
    + apply emitted_app. reflexivity.
Qed.

Lemma stop_clears_stale_pidfile_witness :
  let w := machine (pidfile_with "4242") ∅ prompt_child in
  fst (stop (__init__ conf_default) false w) = Ret tt /\
  files (snd (stop (__init__ conf_default) false w)) !! "/tmp/rgbd.pid" = None /\
  emitted w (snd (stop (__init__ conf_default) false w)) = ERemove "/tmp/rgbd.pid" :: nil.
Proof.
  apply (stop_clears_stale_pidfile (__init__ conf_default)
           (machine (pidfile_with "4242") ∅ prompt_child) "/tmp/rgbd.pid" "4242" 4242 false).
  - reflexivity.
  - reflexivity.
  - reflexivity.
  - lia.
  - reflexivity.
  - reflexivity.
Defined.

(** C4 as the specification words it fails where the pidfile may not be
    deleted: the pidfile names process 4242, which does not exist, and
    [stop] ends in an uncaught [PermissionError] with the pidfile still
    there. *)
Lemma stop_keeps_undeletable_stale_pidfile :
  let w := machine_undeletable (pidfile_with "4242") ∅ in
  process_exists w 4242 = false /\
  fst (stop (__init__ conf_default) false w) = Raise PermissionError /\
  fst (stop (__init__ conf_default) false w) <> Ret tt /\
  files (snd (stop (__init__ conf_default) false w)) !! "/tmp/rgbd.pid" = Some "4242".
Proof. vm_compute. repeat split. discriminate. Qed.

(** C5, as the code has it: when the pidfile holds the pid of a live
    process that the caller may signal and that is still alive 300 ms
    after the [SIGTERM], [stop] sends the signal, sleeps the 300 ms,
    probes, reports the hang and exits with status 1, the pidfile
    untouched; a second [stop] in the same situation does the same. *)
Theorem stop_reports_hang (self : RGBd) (w : World) (path text : string)
    (n : Z) (r r' : bool) :
  daemon_pidfile self = Some path -> files w !! path = Some text ->
  py_int (str_strip text) = Some n -> n <> 0 -> fits_int n = true ->
  hung w n ->
  let w1 := snd (stop self r w) in
  let w2 := snd (stop self r' w1) in
  let report := EKill n SIGTERM :: ESleep 300 :: EKill n SIGNULL :: EStderr MsgHung :: nil in
  fst (stop self r w) = Exit 1 /\
  emitted w w1 = report /\
  now w1 = (now w + 300)%N /\
  files w1 = files w /\
  (hung w1 n ->
   fst (stop self r' w1) = Exit 1 /\ emitted w1 w2 = report /\
   now w2 = (now w1 + 300)%N /\ files w2 = files w).
Proof.
  intros H F P N I G.
  destruct (stop_hung_once self w path text n r H F P N I G) as (E1 & E2 & E3 & E4).
  cbv zeta. split; [assumption|]. split; [assumption|]. split; [assumption|].
  split; [assumption|]. intros G1. rewrite <- E4 in F.
  destruct (stop_hung_once self _ path text n r' H F P N I G1) as (D1 & D2 & D3 & D4).
  rewrite D4. auto.
Qed.

Lemma stop_reports_hang_witness :
  let w := machine (pidfile_with "4242") {[ 4242 := stuck_daemon ]} prompt_child in
  let self := __init__ conf_default in
  let w1 := snd (stop self false w) in
  let w2 := snd (stop self false w1) in
  hung w 4242 /\ hung w1 4242 /\
  fst (stop self false w) = Exit 1 /\ files w1 = files w /\
  fst (stop self false w1) = Exit 1 /\ files w2 = files w /\
  emitted w1 w2
    = EKill 4242 SIGTERM :: ESleep 300 :: EKill 4242 SIGNULL :: EStderr MsgHung :: nil.
Proof.
  cbv zeta.
  assert (G : hung (machine (pidfile_with "4242") {[ 4242 := stuck_daemon ]} prompt_child)
                   4242)
    by (exists stuck_daemon; repeat split).
  assert (G1 : hung (snd (stop (__init__ conf_default) false
                      (machine (pidfile_with "4242") {[ 4242 := stuck_daemon ]}
                               prompt_child))) 4242)
    by (exists stuck_daemon; repeat split).
  destruct (stop_reports_hang (__init__ conf_default)
              (machine (pidfile_with "4242") {[ 4242 := stuck_daemon ]} prompt_child)
              "/tmp/rgbd.pid" "4242" 4242 false false)
    as (A & B & C & D & E); [reflexivity|reflexivity|reflexivity|lia|reflexivity|exact G|].
  destruct (E G1) as (E1 & E2 & E3 & E4).
  repeat split; assumption.
Defined.

(** C5 as stated fails on a live process the caller may not signal: it
    does not exit, yet [stop] neither waits nor reports a hang; it reports
    that it could not signal the process, and exits with status 1. *)
Lemma stop_unsignalable_no_grace_period :
  let w := machine (pidfile_with "1") {[ 1 := foreign_process ]} prompt_child in
  let w' := snd (stop (__init__ conf_default) false w) in
  procs w !! 1 = Some foreign_process /\ dead w foreign_process = false /\
  procs w' !! 1 = Some foreign_process /\ dead w' foreign_process = false /\
  fst (stop (__init__ conf_default) false w) = Exit 1 /\
  emitted w w' = EStderr (MsgUnableToKill 1) :: nil /\
  now w' = now w.
Proof. vm_compute. repeat split. Qed.

(** C7: with no pidfile, [stop] returns without error and without
    touching anything; it writes its warning to the error stream exactly
    when it was not called for a restart; and [restart] is then [start]. *)
Theorem stop_restart_without_pidfile (self : RGBd) (w : World) (path : string) :
  daemon_pidfile self = Some path -> files w !! path = None ->
  (forall r : bool,
     stop self r w = (Ret tt, if r then w else with_event w (EStderr MsgNoPid))) /\
  emitted w (snd (stop self true w)) = nil /\
  emitted w (snd (stop self false w)) = EStderr MsgNoPid :: nil /\
  restart self w = start self w.
Proof.
  intros H F.
  assert (S : forall r : bool,
             stop self r w = (Ret tt, if r then w else with_event w (EStderr MsgNoPid))).
  { intros r.
    assert (R : fst (read_pid self w) = Ret None)
      by (rewrite (read_pid_absent _ _ _ H F); reflexivity).
    rewrite (stop_not_running self w None path r R eq_refl H (or_introl F)), F.
    reflexivity. }
  split; [exact S|]. rewrite !S. simpl. repeat split.
  - apply emitted_app. rewrite app_nil_r. reflexivity.
  - apply emitted_app. reflexivity.
  - apply (bind_Ret (stop self true) (fun _ => start self) w tt w (S true)).
Qed.

Lemma stop_restart_without_pidfile_witness :
  let w := machine ∅ ∅ prompt_child in
  stop (__init__ conf_default) true w = (Ret tt, w) /\
  stop (__init__ conf_default) false w = (Ret tt, with_event w (EStderr MsgNoPid)) /\
  restart (__init__ conf_default) w = start (__init__ conf_default) w.
Proof.
  destruct (stop_restart_without_pidfile (__init__ conf_default)
              (machine ∅ ∅ prompt_child) "/tmp/rgbd.pid")
    as (S & _ & _ & R); [reflexivity|reflexivity|].
  cbv zeta. split; [apply (S true)|]. split; [apply (S false)|exact R].
Defined.

(** C9, as the code has it: a pidfile whose text reads as the integer 0
    is treated like no pidfile.  [start] goes on to [daemonize] and [run],
    as it does when the file is absent.  [stop] sends no signal; when the
    pidfile may be deleted it deletes the file and from there does what it
    does when the file is absent; when it may not, the exception of
    [os.remove] leaves [stop] and nothing is changed. *)
Theorem pid_zero_like_absent (self : RGBd) (w : World) (path text : string) :
  daemon_pidfile self = Some path -> files w !! path = Some text ->
  py_int (str_strip text) = Some 0 ->
  let cleared := with_event (with_files w (delete path (files w))) (ERemove path) in
  start self w = (daemonize self ;; run self ;; ret tt) w /\
  start self cleared = (daemonize self ;; run self ;; ret tt) cleared /\
  (forall r : bool,
     (faults w CRemove = None ->
      stop self r w = stop self r cleared /\
      stop self r w = (Ret tt, if r then cleared else with_event cleared (EStderr MsgNoPid))) /\
     (forall e, faults w CRemove = Some e -> stop self r w = (Raise e, w)) /\
     forall t s, ~ In (EKill t s) (emitted w (snd (stop self r w)))).
Proof.
  intros H F P cleared.
  assert (R : fst (read_pid self w) = Ret (Some 0))
    by (rewrite (read_pid_present _ _ _ _ H F), P; reflexivity).
  assert (F' : files cleared !! path = None) by apply lookup_delete_eq.
  assert (R' : fst (read_pid self cleared) = Ret None)
    by (rewrite (read_pid_absent _ _ _ H F'); reflexivity).
  split; [apply (start_passes _ _ _ R eq_refl)|].
  split; [apply (start_passes _ _ _ R' eq_refl)|].
  intros r. split; [|split].
  - intros Q.
    rewrite (stop_not_running self w (Some 0) path r R eq_refl H (or_intror Q)), F.
    rewrite (stop_not_running self cleared None path r R' eq_refl H (or_introl F')), F'.
    fold cleared. cbv zeta. split; reflexivity.
  - intros e Q. apply (stop_not_running_undeletable self w (Some 0) path text e r R eq_refl H F Q).
  - intros t s. destruct (faults w CRemove) as [e|] eqn:Q.
    + rewrite (stop_not_running_undeletable self w (Some 0) path text e r R eq_refl H F Q).
      simpl. erewrite emitted_app by (rewrite app_nil_r; reflexivity). simpl. tauto.
    + rewrite (stop_not_running self w (Some 0) path r R eq_refl H (or_intror Q)), F.
      destruct r.
      * erewrite emitted_app by reflexivity. simpl. intuition discriminate.
      * erewrite emitted_app by (simpl; rewrite <- app_assoc; reflexivity).
        simpl. intuition discriminate.
Qed.

Lemma pid_zero_like_absent_witness :
  let w := machine (pidfile_with "0") ∅ prompt_child in
  let cleared := with_event (with_files w (delete "/tmp/rgbd.pid" (files w)))
                            (ERemove "/tmp/rgbd.pid") in
  stop (__init__ conf_default) false w = (Ret tt, with_event cleared (EStderr MsgNoPid)) /\
  stop (__init__ conf_default) true w = (Ret tt, cleared) /\
  start (__init__ conf_default) w
  = (daemonize (__init__ conf_default) ;; run (__init__ conf_default) ;; ret tt) w /\
  exists self, fst (start (__init__ conf_default) w) = Serving self.
Proof.
  cbv zeta.
  destruct (pid_zero_like_absent (__init__ conf_default)
              (machine (pidfile_with "0") ∅ prompt_child) "/tmp/rgbd.pid" "0")
    as (A & _ & S); [reflexivity|reflexivity|reflexivity|].
  destruct (S false) as (E & _ & _). destruct (E eq_refl) as (_ & E1).
  destruct (S true) as (E' & _ & _). destruct (E' eq_refl) as (_ & E1').
  split; [exact E1|]. split; [exact E1'|]. split; [exact A|].
  eexists. vm_compute. reflexivity.
Defined.

(** C9 as the specification words it fails where the pidfile may not be
    deleted: the pidfile reads 0 and [stop] ends in an uncaught
    [PermissionError] with the file still there, where without a pidfile
    it returns. *)
Lemma stop_keeps_undeletable_zero_pidfile :
  let w := machine_undeletable (pidfile_with "0") ∅ in
  let absent := machine_undeletable ∅ ∅ in
  fst (read_pid (__init__ conf_default) w) = Ret (Some 0) /\
  fst (stop (__init__ conf_default) false w) = Raise PermissionError /\
  files (snd (stop (__init__ conf_default) false w)) !! "/tmp/rgbd.pid" = Some "0" /\
  fst (stop (__init__ conf_default) false absent) = Ret tt.
Proof. vm_compute. repeat split. Qed.

(** C10: when the stripped text of the pidfile is no decimal integer,
    [start] and [stop] both end in the [ValueError] of [int], uncaught,
    before they have done anything. *)
Theorem unparsable_pidfile_raises (self : RGBd) (w : World) (path text : string) :
  daemon_pidfile self = Some path -> files w !! path = Some text ->
  py_int (str_strip text) = None ->
  start self w = (Raise ValueError, w) /\
  forall r : bool, stop self r w = (Raise ValueError, w).
Proof.
  intros H F P.
  assert (R : read_pid self w = (Raise ValueError, w))
    by (rewrite (read_pid_present _ _ _ _ H F), P; reflexivity).
  split; [|intros r]; apply bind_Raise; exact R.
Qed.

Lemma unparsable_pidfile_raises_witness :
  let w := machine (pidfile_with "12 34") ∅ prompt_child in
  start (__init__ conf_default) w = (Raise ValueError, w) /\
  stop (__init__ conf_default) false w = (Raise ValueError, w) /\
  start (__init__ conf_default) (machine (pidfile_with "") ∅ prompt_child)
  = (Raise ValueError, machine (pidfile_with "") ∅ prompt_child).
Proof.
  cbv zeta. split; [|split].
  - apply (unparsable_pidfile_raises (__init__ conf_default)
             (machine (pidfile_with "12 34") ∅ prompt_child) "/tmp/rgbd.pid" "12 34");
      reflexivity.
  - apply (unparsable_pidfile_raises (__init__ conf_default)
             (machine (pidfile_with "12 34") ∅ prompt_child) "/tmp/rgbd.pid" "12 34");
      reflexivity.
  - apply (unparsable_pidfile_raises (__init__ conf_default)
             (machine (pidfile_with "") ∅ prompt_child) "/tmp/rgbd.pid" "");
      reflexivity.
Defined.

(** ** The claims about [cleanup] *)

Lemma terminate_child_events w lt c p :
  child_of w lt c p ->
  exists w' waited, terminate lt w = (Ret tt, w') /\ files w' = files w /\
    log w' = (log w ++ terminate_events c waited (outlives w SIGINT 250 p))%list /\
    now w' = (now w + waited)%N /\ (waited <= 250)%N /\
    (outlives w SIGINT 250 p = true -> waited = 250%N) /\
    (outlives w SIGINT 250 p = false -> procs w' !! c = None).
Proof.
  intros C. destruct (terminate_child w lt c p C) as (w' & T & F & R).
  destruct (outlives w SIGINT 250 p).
  - destruct R as (N1 & L1). exists w', 250%N. repeat split; auto; try lia; try discriminate.
  - destruct R as (N1 & L1 & G). exists w', (now w' - now w)%N.
    repeat split; auto; try lia; try discriminate.
Qed.

Lemma cleanup_blank_ok self w :
  can_blank self w ->
  cleanup_blank self w =
    (Ret tt, if truthy (blank_on_exit self) then with_event w EBlank else w).
Proof.
  intros B. unfold cleanup_blank, can_blank in *.
  destruct (truthy (blank_on_exit self)); [|reflexivity].
  destruct (B eq_refl) as (S & Q). destruct (strip self); [|contradiction].
  unfold blank_strip, env_call, emit, attr, ret, bind. rewrite Q. reflexivity.
Qed.

(** [cleanup] of a daemon with a child: the whole run. *)
Lemma cleanup_running self w lt c p path :
  daemon_pidfile self = Some path -> listener_thread self = Some lt ->
  child_of w lt c p -> can_blank self w ->
  files w !! path = None \/ faults w CRemove = None ->
  exists w' waited, cleanup self w = (Exit 0, w') /\
    files w' = delete path (files w) /\
    now w' = (now w + waited)%N /\ (waited <= 250)%N /\
    log w' = (log w
              ++ (if truthy (blank_on_exit self) then EBlank :: nil else nil)
              ++ terminate_events c waited (outlives w SIGINT 250 p)
              ++ (match files w !! path with Some _ => ERemove path :: nil | None => nil end)
              ++ EPrint (MsgExited (now w')) :: EClose Stdin :: EClose Stdout
                 :: EClose Stderr :: nil)%list.
Proof.
  intros H LT C B Q. rewrite cleanup_stages.
  rewrite (bind_Ret _ _ _ _ _ (cleanup_blank_ok self w B)).
  set (w0 := if truthy (blank_on_exit self) then with_event w EBlank else w).
  assert (Q0 : faults w0 = faults w) by (unfold w0; destruct (truthy _); reflexivity).
  assert (L0 : log w0 = (log w ++ if truthy (blank_on_exit self) then EBlank :: nil else nil)%list).
  { unfold w0. destruct (truthy _); [reflexivity|]. rewrite app_nil_r. reflexivity. }
  assert (C0 : child_of w0 lt c p) by (unfold w0; destruct (truthy _); exact C).
  assert (O0 : outlives w0 SIGINT 250 p = outlives w SIGINT 250 p)
    by (unfold w0; destruct (truthy _); reflexivity).
  assert (F0 : files w0 = files w) by (unfold w0; destruct (truthy _); reflexivity).
  assert (N0 : now w0 = now w) by (unfold w0; destruct (truthy _); reflexivity).
  rewrite LT. rewrite (bind_Ret (attr "listener_thread" (Some lt)) _ w0 lt w0 eq_refl).
  destruct (terminate_child_events w0 lt c p C0) as (w1 & wt & T & F1 & L1 & N1 & W & _).
  rewrite (bind_Ret _ _ _ _ _ T).
  pose proof (cleanup_release_cases self w1) as R. rewrite H in R.
  destruct R as (w' & R & Pr & Nw & Fl & Lg).
  { rewrite F1, F0. pose proof (terminate_faults lt w0) as Q1. rewrite T in Q1.
    simpl in Q1. rewrite Q1, Q0. exact Q. }
  exists w', wt. split; [exact R|]. rewrite Fl, F1, F0, Nw, N1, N0.
  repeat split; [assumption|].
  rewrite Lg, L1, L0, O0, F1, F0. unfold release_events. rewrite N1, N0.
  rewrite <- !app_assoc. destruct (files w !! path); reflexivity.
Qed.

(** C2, as the code has it: in every run of [cleanup], if the output is
    to be blanked the blanking comes strictly before any signal to the
    child; and a removal of the pidfile comes strictly after the [SIGINT]
    to the child and after the child was either found exited and reaped or
    sent [SIGKILL].  Whether a killed child is gone by then is not
    waited for. *)
Theorem cleanup_order (self : RGBd) (w : World) :
  exists evs : list event,
    log (snd (cleanup self w)) = (log w ++ evs)%list /\
    (truthy (blank_on_exit self) = true ->
     forall (i : nat) t s, evs !! i = Some (EKill t s) ->
       exists j : nat, (j < i)%nat /\ evs !! j = Some EBlank) /\
    (forall (i : nat) path, evs !! i = Some (ERemove path) ->
       exists lt c, listener_thread self = Some lt /\ pid lt = Some c /\
         (exists j : nat, (j < i)%nat /\ evs !! j = Some (EKill c SIGINT)) /\
         (procs (snd (cleanup self w)) !! c = None \/
          exists j : nat, (j < i)%nat /\ evs !! j = Some (EKill c SIGKILL))).
Proof.
  rewrite cleanup_stages.
  destruct (cleanup_blank_cases self w) as [[e B]|[[T B]|[T B]]].
  - rewrite (bind_Raise _ _ _ _ _ B). exists nil. simpl. rewrite app_nil_r.
    repeat split; intros; discriminate.
  - rewrite (bind_Ret _ _ _ _ _ B).
    destruct (cleanup_child_before_release self (with_event w EBlank))
      as (evs & L & _ & R).
    cbv zeta in L, R. exists (EBlank :: evs). split; [|split].
    + rewrite L. simpl. rewrite <- app_assoc. reflexivity.
    + intros _ i t s E. destruct i as [|i]; [discriminate|].
      exists 0%nat. split; [lia|reflexivity].
    + intros i path E. destruct i as [|i]; [discriminate|]. simpl in E.
      destruct (R i path E) as (lt & c & LT & P & (j & J & EJ) & K).
      exists lt, c. repeat split; try assumption.
      * exists (S j). split; [lia|exact EJ].
      * destruct K as [K|(k & K & EK)]; [left; exact K|].
        right. exists (S k). split; [lia|exact EK].
  - rewrite (bind_Ret _ _ _ _ _ B).
    destruct (cleanup_child_before_release self w) as (evs & L & _ & R).
    exists evs. split; [exact L|]. split; [|exact R].
    intros T'. rewrite T in T'. discriminate.
Qed.

Lemma cleanup_order_witness :
  let self := daemon_of (booted conf_blanking prompt_child) in
  let w := snd (booted conf_blanking prompt_child) in
  let evs := emitted w (snd (cleanup self w)) in
  truthy (blank_on_exit self) = true /\
  evs !! 1%nat = Some (EKill 103 SIGINT) /\
  evs !! 3%nat = Some (ERemove "/tmp/rgbd.pid") /\
  (exists j : nat, (j < 1)%nat /\ evs !! j = Some EBlank) /\
  (exists lt c, listener_thread self = Some lt /\ pid lt = Some c /\
     (exists j : nat, (j < 3)%nat /\ evs !! j = Some (EKill c SIGINT)) /\
     (procs (snd (cleanup self w)) !! c = None \/
      exists j : nat, (j < 3)%nat /\ evs !! j = Some (EKill c SIGKILL))).
Proof.
  cbv zeta.
  destruct (cleanup_order (daemon_of (booted conf_blanking prompt_child))
                          (snd (booted conf_blanking prompt_child)))
    as (evs & L & B & R).
  apply emitted_app in L. rewrite L.
  assert (E1 : evs !! 1%nat = Some (EKill 103 SIGINT)) by (rewrite <- L; reflexivity).
  assert (E3 : evs !! 3%nat = Some (ERemove "/tmp/rgbd.pid"))
    by (rewrite <- L; reflexivity).
  split; [reflexivity|]. split; [exact E1|]. split; [exact E3|]. split.
  - exact (B eq_refl 1%nat 103 SIGINT E1).
  - exact (R 3%nat "/tmp/rgbd.pid" E3).
Defined.

(** C2 as stated fails on a child that ignores [SIGINT] and takes 5 ms to
    die of [SIGKILL]: [cleanup] removes the pidfile right after sending
    the kill, while the child is still alive. *)
Lemma cleanup_removes_pidfile_before_child_is_gone :
  let self := daemon_of (booted conf_blanking deaf_child) in
  let w := snd (booted conf_blanking deaf_child) in
  let w' := snd (cleanup self w) in
  files w !! "/tmp/rgbd.pid" = Some ("102" ++ newline)%string /\
  fst (cleanup self w) = Exit 0 /\
  emitted w w' = EBlank :: EKill 103 SIGINT :: EJoin 103 250 :: EKill 103 SIGKILL
                 :: EPrint MsgSigkilledChild :: ERemove "/tmp/rgbd.pid"
                 :: EPrint (MsgExited 250) :: EClose Stdin :: EClose Stdout
                 :: EClose Stderr :: nil /\
  files w' !! "/tmp/rgbd.pid" = None /\
  exists p, procs w' !! 103 = Some p /\ exit_at p = Some 255%N /\ now w' = 250%N /\
            dead w' p = false.
Proof.
  cbv zeta. repeat split.
  eexists. split; [vm_compute; reflexivity|]. repeat split.
Qed.

(** C3: for every child of the daemon, the terminate sequence returns;
    it first sends [SIGINT], then waits for the child, at most 250 ms; a
    child still alive at the end of the wait is sent [SIGKILL] and the
    escalation is printed, any other child is left alone.  The clock moves
    by the wait and by nothing else, so the sequence is over within 250
    ms. *)
Theorem terminate_escalates (w : World) (lt : Process) (c : Z) (p : proc) :
  child_of w lt c p ->
  let w' := snd (terminate lt w) in
  let waited := (now w' - now w)%N in
  fst (terminate lt w) = Ret tt /\
  now w' = (now w + waited)%N /\ (waited <= 250)%N /\
  (outlives w SIGINT 250 p = true ->
   waited = 250%N /\
   emitted w w' = EKill c SIGINT :: EJoin c 250 :: EKill c SIGKILL
                  :: EPrint MsgSigkilledChild :: nil) /\
  (outlives w SIGINT 250 p = false ->
   emitted w w' = EKill c SIGINT :: EJoin c waited :: nil /\
   procs w' !! c = None).
Proof.
  intros C. destruct (terminate_child_events w lt c p C)
    as (w' & wt & T & F & L & N1 & W & O1 & O0).
  rewrite T. cbv zeta. simpl fst. simpl snd.
  replace (now w' - now w)%N with wt by lia.
  split; [reflexivity|]. split; [assumption|]. split; [assumption|]. split.
  - intros O. rewrite O in L. rewrite (O1 O) in *. split; [reflexivity|].
    apply emitted_app. exact L.
  - intros O. rewrite O in L. split; [|exact (O0 O)].
    apply emitted_app. exact L.
Qed.

Lemma terminate_escalates_witness :
  let w := snd (booted conf_default deaf_child) in
  let lt := {| pid := Some 103 |} in
  child_of w lt 103 deaf_child /\ outlives w SIGINT 250 deaf_child = true /\
  fst (terminate lt w) = Ret tt /\
  emitted w (snd (terminate lt w))
    = EKill 103 SIGINT :: EJoin 103 250 :: EKill 103 SIGKILL
      :: EPrint MsgSigkilledChild :: nil.
Proof.
  cbv zeta.
  assert (C : child_of (snd (booted conf_default deaf_child)) {| pid := Some 103 |}
                       103 deaf_child) by (repeat split).
  destruct (terminate_escalates (snd (booted conf_default deaf_child))
              {| pid := Some 103 |} 103 deaf_child C) as (R & _ & _ & K & _).
  destruct (K eq_refl) as (_ & E).
  repeat split; assumption.
Defined.



(** ** The claim about [daemonize: false] *)

(** [cleanup] of an object without the pidfile path, once it has a
    child: the child is dealt with, then the missing attribute ends the
    call. *)
Lemma cleanup_without_pidfile_path self w lt c p :
  daemon_pidfile self = None -> listener_thread self = Some lt ->
  child_of w lt c p -> can_blank self w ->
  fst (cleanup self w) = Raise (AttributeError "daemon_pidfile").
Proof.
  intros H LT C B. rewrite cleanup_stages.
  rewrite (bind_Ret _ _ _ _ _ (cleanup_blank_ok self w B)).
  set (w0 := if truthy (blank_on_exit self) then with_event w EBlank else w).
  assert (C0 : child_of w0 lt c p) by (unfold w0; destruct (truthy _); exact C).
  rewrite LT. rewrite (bind_Ret (attr "listener_thread" (Some lt)) _ w0 lt w0 eq_refl).
  destruct (terminate_child_events w0 lt c p C0) as (w1 & wt & T & _).
  rewrite (bind_Ret _ _ _ _ _ T).
  pose proof (cleanup_release_cases self w1) as R. rewrite H in R. rewrite R.
  reflexivity.
Qed.

(** C8: when the configuration sets [daemonize] to [false], the
    constructor returns with none of the [daemon_*] attributes assigned,
    the pidfile path among them; on the object it leaves, [start], [stop]
    and [cleanup] each end in an uncaught [AttributeError] before they
    have done anything; and were that object given its engine and its
    child, [cleanup] would end in the [AttributeError] of the pidfile
    path. *)
Theorem foreground_object_raises (cf : Conf) (w : World) (r : bool) :
  c_daemonize cf = Some (PBool false) ->
  let self := __init__ cf in
  (daemon_pidfile self = None /\ daemon_chdir self = None /\
   daemon_stdin self = None /\ daemon_in_md self = None /\
   daemon_stdout self = None /\ daemon_out_md self = None /\
   daemon_stderr self = None /\ daemon_err_md self = None) /\
  start self w = (Raise (AttributeError "daemon_pidfile"), w) /\
  stop self r w = (Raise (AttributeError "daemon_pidfile"), w) /\
  cleanup self w =
    (Raise (AttributeError (if truthy (blank_on_exit self)
                            then "strip" else "listener_thread")), w) /\
  forall lt c p,
    child_of w lt c p ->
    let self' := set_strip (set_listener_thread (set_queue self) lt) StripObject in
    faults w CBlankStrip = None ->
    fst (cleanup self' w) = Raise (AttributeError "daemon_pidfile").
Proof.
  intros D. cbv zeta. unfold __init__. rewrite D. simpl eq_False. cbv iota.
  split; [repeat split|]. split; [reflexivity|]. split; [reflexivity|]. split.
  - unfold cleanup. simpl. destruct (truthy _); reflexivity.
  - intros lt c p C Q.
    apply (cleanup_without_pidfile_path _ w lt c p); [reflexivity|reflexivity|exact C|].
    intros _. split; [discriminate|exact Q].
Qed.

Lemma foreground_object_raises_witness :
  let w := machine (pidfile_with "4242") ∅ prompt_child in
  start (__init__ conf_foreground) w = (Raise (AttributeError "daemon_pidfile"), w) /\
  stop (__init__ conf_foreground) false w = (Raise (AttributeError "daemon_pidfile"), w) /\
  cleanup (__init__ conf_foreground) w = (Raise (AttributeError "listener_thread"), w).
Proof.
  cbv zeta.
  destruct (foreground_object_raises conf_foreground
              (machine (pidfile_with "4242") ∅ prompt_child) false eq_refl)
    as (_ & S & T & U & _).
  split; [exact S|]. split; [exact T|exact U].
Defined.

(** ** The text [daemonize] writes and [int] reads *)

Lemma int_tail_digits d acc :
  int_tail acc (NilEmpty.string_of_uint d) = Some (uint_value acc d).
Proof. revert acc. induction d; intros acc; simpl; auto. Qed.

Lemma int_digits_digits d :
  d <> Decimal.Nil ->
  int_digits (NilEmpty.string_of_uint d) = Some (uint_value 0 d).
Proof.
  destruct d; intros N; try contradiction; simpl; apply int_tail_digits.
Qed.

Lemma of_uint_acc_value d acc :
  Z.pos (Pos.of_uint_acc d acc) = uint_value (Z.pos acc) d.
Proof.
  revert acc. induction d; intros acc; simpl; auto; rewrite IHd; f_equal; lia.
Qed.

Lemma of_uint_value d : Z.of_N (Pos.of_uint d) = uint_value 0 d.
Proof.
  induction d; simpl; auto; rewrite of_uint_acc_value; reflexivity.
Qed.

Lemma to_uint_value p : uint_value 0 (Pos.to_uint p) = Z.pos p.
Proof. rewrite <- of_uint_value, DecimalPos.Unsigned.of_to. reflexivity. Qed.

Lemma to_uint_not_Nil p : Pos.to_uint p <> Decimal.Nil.
Proof.
  intros E. pose proof (to_uint_value p) as V. rewrite E in V. discriminate.
Qed.

Lemma no_space_digits d : no_space (NilEmpty.string_of_uint d) = true.
Proof. induction d; simpl; auto. Qed.

Lemma lstrip_no_space s : no_space s = true -> lstrip s = s.
Proof.
  destruct s as [|c s]; [reflexivity|]. simpl.
  destruct (is_space c); [discriminate|reflexivity].
Qed.

Lemma no_space_cons c s :
  no_space (String c s) = true -> is_space c = false /\ no_space s = true.
Proof.
  simpl. destruct (is_space c); [discriminate|]. auto.
Qed.

Lemma rstrip_cons c s :
  rstrip (String c s) =
    match rstrip s with
    | EmptyString => if is_space c then EmptyString else String c EmptyString
    | r => String c r
    end.
Proof. reflexivity. Qed.

Lemma rstrip_no_space s : no_space s = true -> rstrip s = s.
Proof.
  induction s as [|c s IH]; [reflexivity|]. intros N.
  destruct (no_space_cons _ _ N) as (C & N'). rewrite rstrip_cons, (IH N').
  destruct s; [rewrite C|]; reflexivity.
Qed.

Lemma rstrip_line s : no_space s = true -> rstrip (s ++ newline) = s.
Proof.
  induction s as [|c s IH]; [reflexivity|]. intros N.
  destruct (no_space_cons _ _ N) as (C & N').
  change (String c s ++ newline)%string with (String c (s ++ newline)).
  rewrite rstrip_cons, (IH N'). destruct s; [rewrite C|]; reflexivity.
Qed.

Lemma str_strip_no_space s : no_space s = true -> str_strip s = s.
Proof.
  intros N. unfold str_strip. rewrite (lstrip_no_space _ N). apply rstrip_no_space, N.
Qed.

(** A line without white space, as [write] leaves it, stripped. *)
Lemma str_strip_line s : no_space s = true -> str_strip (s ++ newline) = s.
Proof.
  intros N. unfold str_strip. destruct s as [|c s]; [reflexivity|].
  destruct (no_space_cons _ _ N) as (C & _).
  change (String c s ++ newline)%string with (String c (s ++ newline)).
  cbn [lstrip]. rewrite C. apply (rstrip_line (String c s)). exact N.
Qed.

Lemma no_space_format_int n : no_space (format_int n) = true.
Proof.
  unfold format_int. destruct n as [|p|p]; simpl; try reflexivity;
    unfold NilZero.string_of_uint;
    (destruct (Pos.to_uint p) eqn:E; [reflexivity|..]; rewrite <- E; apply no_space_digits).
Qed.

Lemma string_of_uint_to_uint p :
  NilZero.string_of_uint (Pos.to_uint p) = NilEmpty.string_of_uint (Pos.to_uint p).
Proof.
  unfold NilZero.string_of_uint. pose proof (to_uint_not_Nil p) as N.
  destruct (Pos.to_uint p); [contradiction|..]; reflexivity.
Qed.

Lemma first_digit d :
  d <> Decimal.Nil ->
  exists c s, NilEmpty.string_of_uint d = String c s /\ digit_of c <> None.
Proof.
  destruct d; intros N; try contradiction; simpl; eexists _, _; split;
    try reflexivity; discriminate.
Qed.

(** [int] reads back what ["{}".format] wrote. *)
Lemma py_int_format_int n : py_int (format_int n) = Some n.
Proof.
  unfold py_int. rewrite (str_strip_no_space _ (no_space_format_int n)).
  unfold format_int. destruct n as [|p|p]; [reflexivity|..]; simpl;
    rewrite string_of_uint_to_uint.
  - pose proof (int_digits_digits _ (to_uint_not_Nil p)) as D.
    rewrite to_uint_value in D.
    destruct (first_digit _ (to_uint_not_Nil p)) as (c & s & E & ND).
    rewrite E in *.
    destruct (Ascii.eqb_spec c "+") as [->|_]; [contradiction ND; reflexivity|].
    destruct (Ascii.eqb_spec c "-") as [->|_]; [contradiction ND; reflexivity|].
    destruct c as [[] [] [] [] [] [] [] []]; try exact D; contradiction ND; reflexivity.
  - rewrite (int_digits_digits _ (to_uint_not_Nil p)), to_uint_value. reflexivity.
Qed.

Lemma py_int_pid_line n : py_int (str_strip (format_int n ++ newline)) = Some n.
Proof.
  rewrite (str_strip_line _ (no_space_format_int n)). apply py_int_format_int.
Qed.

(** ** [daemonize] *)

Lemma truthy_not_eq_False v : truthy v = true -> eq_False v = false.
Proof.
  destruct v as [|[]|z|[]|s|l|d]; simpl; try discriminate; try reflexivity.
  destruct (z =? 0); [discriminate|reflexivity].
Qed.

(** The object of a configuration that leaves daemonization on has all
    its [daemon_*] attributes. *)
Lemma init_daemonizing cf :
  daemonizing cf ->
  __init__ cf =
    let d := get (c_daemon cf) empty_daemon_conf in
    {| conf := cf; blank_on_exit := get (c_blank_on_exit cf) (PBool false);
       do_daemonize := get (c_daemonize cf) (PBool true);
       daemon_stdin := Some (get (c_stdin d) os_devnull);
       daemon_in_md := Some (get (c_stdin_mode d) "r");
       daemon_stdout := Some (get (c_stdout d) os_devnull);
       daemon_out_md := Some (get (c_stdout_mode d) "a");
       daemon_stderr := Some (get (c_stderr d) os_devnull);
       daemon_err_md := Some (get (c_stderr_mode d) "a");
       daemon_chdir := Some (get (c_working_dir d) "/");
       daemon_pidfile := Some (pidfile_of cf);
       queue := None; listener_thread := None; strip := None |}.
Proof.
  intros D. unfold __init__. rewrite (truthy_not_eq_False _ D). reflexivity.
Qed.

Lemma env_call_quiet c w : quiet w -> env_call c w = (Ret tt, w).
Proof. intros Q. unfold env_call. rewrite Q. reflexivity. Qed.

Lemma fork_stage_child failed w a rest :
  forks w = InChild a :: rest ->
  fork_stage failed w = (Ret tt, with_event (with_fork w a rest) (EFork (InChild a))).
Proof.
  intros F. unfold fork_stage, try_except, bind, os_fork. rewrite F. reflexivity.
Qed.

Lemma open_stream_quiet c name_path name_mode p m w :
  quiet w -> open_stream c name_path name_mode (Some p) (Some m) w = (Ret (p, m), w).
Proof. intros Q. unfold open_stream, bind, attr, ret, env_call. rewrite Q. reflexivity. Qed.

Lemma os_dup2_quiet f s w :
  quiet w -> os_dup2 f s w = (Ret tt, with_event w (ERedirect s (fst f) (snd f))).
Proof. intros Q. unfold os_dup2, bind, env_call, emit. rewrite Q. reflexivity. Qed.

Lemma signal_signal_quiet s h w :
  quiet w -> signal_signal s h w = (Ret tt, with_event w (EBind s h)).
Proof. intros Q. unfold signal_signal, bind, env_call, emit. rewrite Q. reflexivity. Qed.

Lemma write_file_quiet path text w :
  quiet w ->
  write_file path text w =
    (Ret tt, with_event (with_files w (<[path := text]> (files w))) (EWrite path text)).
Proof. intros Q. unfold write_file. rewrite !Q. reflexivity. Qed.

(** One step of a computation whose head returns: by the environment
    being quiet, or by evaluation. *)
Ltac step Q :=
  first [ erewrite bind_Ret by (apply env_call_quiet; exact Q)
        | erewrite bind_Ret by (apply open_stream_quiet; exact Q)
        | erewrite bind_Ret by (apply os_dup2_quiet; exact Q)
        | erewrite bind_Ret by (apply signal_signal_quiet; exact Q)
        | erewrite bind_Ret by (apply write_file_quiet; exact Q)
        | erewrite bind_Ret by reflexivity ].

Lemma daemonize_goes_through cf w a b rest :
  daemonizing cf -> detaches w a b rest -> quiet w ->
  daemonize (__init__ cf) w = (Ret tt, daemonized cf a b rest w).
Proof.
  intros D F Q. rewrite (init_daemonizing cf D). unfold daemonizing in D.
  unfold detaches in F. unfold daemonize. cbn [do_daemonize]. rewrite D. cbn [negb].
  cbn [daemon_chdir daemon_stdin daemon_in_md daemon_stdout daemon_out_md
       daemon_stderr daemon_err_md daemon_pidfile].
  rewrite (bind_Ret _ _ _ _ _ (fork_stage_child _ w a _ F)).
  do 7 step Q.
  erewrite bind_Ret by (apply fork_stage_child; reflexivity).
  repeat step Q.
  unfold daemonized, daemonize_events.
  cbv beta iota zeta delta [emit with_event with_files with_fork now files procs
                            own_pid forks next_child faults py_major uid euid gid log].
  rewrite <- !app_assoc. reflexivity.
Qed.

(** ** [run] *)

Lemma Process_start_quiet p w :
  quiet w ->
  Process_start p w = (Ret {| pid := Some (fst (next_child w)) |}, spawned w).
Proof.
  intros Q. unfold Process_start. step Q. unfold spawned.
  destruct (next_child w) as [c b]. reflexivity.
Qed.

Lemma run_serves self w :
  fit_to_run w -> quiet w ->
  run self w = (Serving (serving self (fst (next_child w))), spawned w).
Proof.
  intros (V & U & E & G) Q. unfold run.
  erewrite bind_Ret by reflexivity.
  destruct (Z.ltb_spec (py_major w) 3) as [|_]; [lia|].
  erewrite bind_Ret by reflexivity.
  erewrite bind_Ret by reflexivity. cbv beta iota.
  destruct (Z.eqb_spec (uid w) 0) as [|_]; [contradiction|].
  destruct (Z.eqb_spec (euid w) 0) as [|_]; [contradiction|].
  destruct (Z.eqb_spec (gid w) 0) as [|_]; [contradiction|].
  cbn [orb].
  erewrite bind_Ret by reflexivity.
  step Q. erewrite bind_Ret by reflexivity.
  rewrite (bind_Ret _ _ _ _ _ (Process_start_quiet _ w Q)).
  step Q. erewrite bind_Ret by reflexivity.
  unfold animate. step Q. reflexivity.
Qed.

(** [run] refuses an old interpreter and a privileged user before it has
    created anything. *)
Lemma run_refuses self w :
  unfit_to_run w -> exists msg, run self w = (Raise (Exception msg), w).
Proof.
  intros U. unfold run. erewrite bind_Ret by reflexivity.
  destruct (Z.ltb_spec (py_major w) 3) as [|V].
  - eexists. reflexivity.
  - erewrite bind_Ret by reflexivity. erewrite bind_Ret by reflexivity. cbv beta iota.
    destruct (Z.eqb_spec (uid w) 0) as [|U0]; [eexists; reflexivity|].
    destruct (Z.eqb_spec (euid w) 0) as [|E0]; [eexists; reflexivity|].
    destruct (Z.eqb_spec (gid w) 0) as [|G0]; [eexists; reflexivity|].
    exfalso. destruct U as [|[|[|]]]; [lia|contradiction..].
Qed.

(** ** [start], [stop] and [restart] on a whole machine *)

Lemma init_pidfile cf : daemonizing cf -> daemon_pidfile (__init__ cf) = Some (pidfile_of cf).
Proof. intros D. rewrite (init_daemonizing cf D). reflexivity. Qed.

Lemma bind_Serving {A B : Type} (m : M A) (k : A -> M B) w s w' :
  m w = (Serving s, w') -> bind m k w = (Serving s, w').
Proof. intros E. unfold bind. rewrite E. reflexivity. Qed.

Lemma start_goes_through cf w a b rest p :
  daemonizing cf -> detaches w a b rest -> quiet w -> fit_to_run w ->
  fst (read_pid (__init__ cf) w) = Ret p -> pid_truthy p = false ->
  start (__init__ cf) w =
    (Serving (serving (__init__ cf) (fst (next_child w))),
     spawned (daemonized cf a b rest w)).
Proof.
  intros D F Q R P T. rewrite (start_passes _ _ _ P T).
  rewrite (bind_Ret _ _ _ _ _ (daemonize_goes_through cf w a b rest D F Q)).
  apply bind_Serving.
  exact (run_serves (__init__ cf) (daemonized cf a b rest w) R Q).
Qed.

Lemma start_unfit cf w a b rest p :
  daemonizing cf -> detaches w a b rest -> quiet w -> unfit_to_run w ->
  fst (read_pid (__init__ cf) w) = Ret p -> pid_truthy p = false ->
  exists msg, start (__init__ cf) w = (Raise (Exception msg), daemonized cf a b rest w).
Proof.
  intros D F Q U P T. rewrite (start_passes _ _ _ P T).
  rewrite (bind_Ret _ _ _ _ _ (daemonize_goes_through cf w a b rest D F Q)).
  destruct (run_refuses (__init__ cf) (daemonized cf a b rest w) U) as (msg & E).
  exists msg. apply bind_Raise. exact E.
Qed.

(** Whoever reads the pidfile a [daemonize] has written finds the pid of
    the daemon. *)
Lemma read_pid_daemonized cf w2 b :
  daemonizing cf ->
  files w2 !! pidfile_of cf = Some (format_int b ++ newline)%string ->
  read_pid (__init__ cf) w2 = (Ret (Some b), w2).
Proof.
  intros D F.
  rewrite (read_pid_present _ _ _ _ (init_pidfile cf D) F), py_int_pid_line.
  reflexivity.
Qed.

Lemma stop_responsive self w path text n r p :
  daemon_pidfile self = Some path -> files w !! path = Some text ->
  py_int (str_strip text) = Some n -> n <> 0 -> fits_int n = true ->
  responsive w n p -> faults w CRemove = None ->
  stop self r w = (Ret tt, stopped w n p path).
Proof.
  intros H F P N I (L & S & C & D & O) X.
  assert (R : fst (read_pid self w) = Ret (Some n))
    by (rewrite (read_pid_present _ _ _ _ H F), P; reflexivity).
  rewrite (stop_signals _ _ _ _ R N).
  unfold outlives in O. rewrite D in O. apply negb_false_iff in O.
  set (p1 := deliver (now w) SIGTERM p) in *.
  set (w1 := with_event (with_procs w (<[n := p1]> (procs w))) (EKill n SIGTERM)).
  set (w2 := with_event (with_now w1 (now w1 + 300)%N) (ESleep 300)).
  assert (K1 : os_kill n SIGTERM w = (Ret tt, w1)).
  { rewrite (os_kill_ok _ _ _ p I L); [rewrite D; reflexivity| |assumption].
    unfold gone. rewrite D. reflexivity. }
  assert (K3 : os_kill n SIGNULL w2 = (Raise ProcessLookupError, w2)).
  { apply os_kill_missing; [assumption|]. unfold process_exists.
    assert (L2 : procs w2 !! n = Some p1) by apply lookup_insert_eq.
    rewrite L2. unfold gone.
    assert (D2 : dead w2 p1 = true) by exact O.
    rewrite D2. unfold p1. rewrite deliver_is_child, C. reflexivity. }
  rewrite (bind_Ret _ _ w false w2).
  - assert (F2 : files w2 !! path = Some text) by exact F.
    assert (X2 : faults w2 CRemove = None) by exact X.
    rewrite (remove_if_there _ _ _ _ H F2 X2). reflexivity.
  - rewrite (try_Raise _ _ w ProcessLookupError w2); [reflexivity|].
    rewrite (bind_Ret _ _ _ _ _ K1).
    erewrite bind_Ret; [|reflexivity]. fold w2.
    apply bind_Raise. exact K3.
Qed.

Lemma stop_overflow self w path text n r :
  daemon_pidfile self = Some path -> files w !! path = Some text ->
  py_int (str_strip text) = Some n -> n <> 0 -> fits_int n = false ->
  stop self r w = (Raise OverflowError, w).
Proof.
  intros H F P N I.
  assert (R : fst (read_pid self w) = Ret (Some n))
    by (rewrite (read_pid_present _ _ _ _ H F), P; reflexivity).
  rewrite (stop_signals _ _ _ _ R N).
  apply bind_Raise. rewrite (try_Raise _ _ w OverflowError w); [reflexivity|].
  apply bind_Raise. unfold os_kill. rewrite I. reflexivity.
Qed.

(** ** What the methods are confined to *)

Section Confined.
Context (P : event -> Prop) (Q : string -> Prop).

Lemma confined_log0 {A : Type} (m : M A) w :
  log (snd (m w)) = log w -> files (snd (m w)) = files w -> confined P Q m w.
Proof.
  intros L F. exists nil. rewrite app_nil_r. repeat split; auto.
  intros q _. rewrite F. reflexivity.
Qed.

Lemma confined_log1 {A : Type} (m : M A) w e :
  log (snd (m w)) = (log w ++ e :: nil)%list -> files (snd (m w)) = files w ->
  P e -> confined P Q m w.
Proof.
  intros L F H. exists (e :: nil). repeat split; auto.
  intros q _. rewrite F. reflexivity.
Qed.

Lemma confined_same {A : Type} (m : M A) w : snd (m w) = w -> confined P Q m w.
Proof. intros E. apply confined_log0; rewrite E; reflexivity. Qed.

Lemma confined_bind {A B : Type} (m : M A) (k : A -> M B) w :
  confined P Q m w ->
  (forall a w', m w = (Ret a, w') -> confined P Q (k a) w') ->
  confined P Q (bind m k) w.
Proof.
  intros (evs & L & F & K) H. unfold confined, bind.
  destruct (m w) as [[a|e|n|s] w'] eqn:E; simpl in *;
    try (exists evs; repeat split; assumption).
  destruct (H a w' eq_refl) as (evs' & L' & F' & K').
  exists (evs ++ evs')%list. rewrite L', L, app_assoc. split; [reflexivity|].
  split; [apply Forall_app; auto|]. intros q HQ. rewrite (K' q HQ). apply K, HQ.
Qed.

Lemma confined_try {A : Type} (m : M A) cl w :
  confined P Q m w ->
  (forall e w', m w = (Raise e, w') -> confined P Q (handle cl e) w') ->
  confined P Q (try_except m cl) w.
Proof.
  intros (evs & L & F & K) H. unfold confined, try_except.
  destruct (m w) as [[a|e|n|s] w'] eqn:E; simpl in *;
    try (exists evs; repeat split; assumption).
  destruct (H e w' eq_refl) as (evs' & L' & F' & K').
  exists (evs ++ evs')%list. rewrite L', L, app_assoc. split; [reflexivity|].
  split; [apply Forall_app; auto|]. intros q HQ. rewrite (K' q HQ). apply K, HQ.
Qed.

Lemma confined_emit e w : P e -> confined P Q (emit e) w.
Proof. intros H. apply (confined_log1 _ _ e); auto. Qed.

Lemma confined_env_call c w : confined P Q (env_call c) w.
Proof. apply confined_same. unfold env_call. destruct (faults w c); reflexivity. Qed.

Lemma confined_attr {A : Type} name (v : option A) w : confined P Q (attr name v) w.
Proof. apply confined_same. destruct v; reflexivity. Qed.

Lemma confined_read_file path w : confined P Q (read_file path) w.
Proof. apply confined_same. unfold read_file. destruct (files w !! path); reflexivity. Qed.

Lemma confined_exists path w : confined P Q (os_path_exists path) w.
Proof.
  apply confined_same. unfold os_path_exists. destruct (files w !! path); reflexivity.
Qed.

Lemma confined_remove path w :
  P (ERemove path) -> ~ Q path -> confined P Q (os_remove path) w.
Proof.
  intros H N. destruct (files w !! path) eqn:F.
  - destruct (faults w CRemove) as [e|] eqn:C.
    + apply confined_same. unfold os_remove. rewrite F, C. reflexivity.
    + exists (ERemove path :: nil). unfold os_remove. rewrite F, C.
      split; [reflexivity|]. split; [auto|].
      intros q HQ. simpl. apply lookup_delete_ne. intros ->. contradiction.
  - apply confined_same. unfold os_remove. rewrite F. reflexivity.
Qed.

Lemma confined_write path text w :
  P (EWrite path text) -> ~ Q path -> confined P Q (write_file path text) w.
Proof.
  intros H N. unfold confined, write_file.
  destruct (faults w COpenPidfile) as [e|].
  { exists nil. rewrite app_nil_r. repeat split; auto. }
  destruct (faults w CWritePidfile) as [e|].
  - exists nil. simpl. rewrite app_nil_r. repeat split; auto.
    intros q HQ. apply lookup_insert_ne. intros ->. contradiction.
  - exists (EWrite path text :: nil). split; [reflexivity|]. split; [auto|].
    intros q HQ. simpl. apply lookup_insert_ne. intros ->. contradiction.
Qed.

Lemma confined_sleep ms w : P (ESleep ms) -> confined P Q (time_sleep ms) w.
Proof. intros H. apply (confined_log1 _ _ (ESleep ms)); auto. Qed.

Lemma confined_kill t s w : P (EKill t s) -> confined P Q (os_kill t s) w.
Proof.
  intros H. destruct (os_kill_cases t s w) as [[e K]|[p' K]].
  - apply confined_same. rewrite K. reflexivity.
  - apply (confined_log1 _ _ (EKill t s)); auto; rewrite K; reflexivity.
Qed.

Lemma confined_kill_pid t s w :
  (forall c, t = Some c -> P (EKill c s)) -> confined P Q (os_kill_pid t s) w.
Proof.
  intros H. destruct t as [c|]; [apply confined_kill; auto|].
  apply confined_same. reflexivity.
Qed.

Lemma confined_join p tm w :
  (forall c waited, pid p = Some c -> (waited <= tm)%N -> P (EJoin c waited)) ->
  confined P Q (Process_join p tm) w.
Proof.
  intros H. destruct p as [[c|]].
  2:{ apply confined_same. reflexivity. }
  destruct (join_cases c tm w) as (w' & J & F & wt & L).
  assert (W : (wt <= tm)%N).
  { revert J L. unfold Process_join. simpl.
    destruct (procs w !! c) as [pr|]; [destruct (exit_at pr) as [t|];
      [destruct (N.leb_spec t (now w + tm))|]|];
      intros [= <-]; simpl; intros L; apply app_inv_head in L;
      injection L as <-; lia. }
  apply (confined_log1 _ _ (EJoin c wt)); rewrite ?J; auto.
Qed.

Lemma confined_is_alive p w : confined P Q (Process_is_alive p) w.
Proof.
  destruct p as [[c|]].
  2:{ apply confined_same. reflexivity. }
  destruct (is_alive_cases c w) as (b & w' & A & F & L & _).
  apply confined_log0; rewrite A; assumption.
Qed.

Lemma confined_start p w :
  (forall c, P (ESpawn c)) -> confined P Q (Process_start p) w.
Proof.
  intros H. unfold Process_start. apply confined_bind; [apply confined_env_call|].
  intros _ w' _. apply (confined_log1 _ _ (ESpawn (fst (next_child w')))); auto;
    destruct (next_child w'); reflexivity.
Qed.

Lemma confined_fork w : (forall r, P (EFork r)) -> confined P Q os_fork w.
Proof.
  intros H. destruct (forks w) as [|[c|c|c] rest] eqn:F.
  - apply confined_same. unfold os_fork. rewrite F. reflexivity.
  - apply (confined_log1 _ _ (EFork (InParent c))); auto;
      unfold os_fork; rewrite F; reflexivity.
  - apply (confined_log1 _ _ (EFork (InChild c))); auto;
      unfold os_fork; rewrite F; reflexivity.
  - apply confined_log0; unfold os_fork; rewrite F; reflexivity.
Qed.
End Confined.


(** One layer of a computation: a bind, a [try], a branch, or a step that
    leaves the machine alone. *)
Ltac confine :=
  repeat first
    [ match goal with
      | |- confined _ _ (bind _ _) _ => apply confined_bind; [|intros ? ? ?]
      | |- confined _ _ (try_except _ _) _ =>
          apply confined_try; [|intros ? ? ?; cbn [handle]]
      end
    | apply confined_env_call
    | apply confined_attr
    | apply confined_read_file
    | apply confined_exists
    | apply confined_is_alive
    | apply confined_same; reflexivity
    | match goal with H : attr _ None _ = (Ret _, _) |- _ => discriminate H end
    | match goal with
      | |- confined _ _ (if ?b then _ else _) _ => destruct b eqn:?
      | |- confined _ _ (match ?x with _ => _ end) _ => destruct x eqn:?
      end ].

Lemma terminate_confined self lt w :
  listener_thread self = Some lt ->
  confined (cleanup_event self) (not_pidfile self) (terminate lt) w.
Proof.
  intros LT. unfold terminate. confine.
  - apply confined_kill_pid. intros c E. simpl. eauto.
  - apply confined_join. intros c wt E _. simpl. eauto.
  - apply confined_kill_pid. intros c E. simpl. eauto.
  - apply confined_emit. exact I.
Qed.

Lemma cleanup_is_confined self w :
  confined (cleanup_event self) (not_pidfile self) (cleanup self) w.
Proof.
  unfold cleanup. apply confined_bind.
  { destruct (truthy (blank_on_exit self)) eqn:T; confine.
    unfold blank_strip. confine. apply confined_emit. exact T. }
  intros _ w0 _. destruct (listener_thread self) as [lt|] eqn:LT; [|confine].
  apply confined_bind; [confine|]. intros lt' w1 [= <- <-].
  apply confined_bind; [apply (terminate_confined self lt w0 LT)|]. intros _ w2 _.
  apply confined_bind.
  { apply confined_try; [|intros ? ? ?; cbn [handle]; confine].
    destruct (daemon_pidfile self) as [path|] eqn:H; [|confine].
    apply confined_bind; [confine|]. intros path' w3 [= <- <-].
    apply confined_remove; [exact H|]. intros N. apply N. exact H. }
  intros _ w3 _. confine; apply confined_emit; exact I.
Qed.

Lemma attr_Ret {A : Type} name (v : option A) w a w' :
  attr name v w = (Ret a, w') -> v = Some a.
Proof. destruct v; [intros [= -> _]; reflexivity|discriminate]. Qed.

Lemma remove_pidfile_confined P self path w w0 w1 :
  (forall q, daemon_pidfile self = Some q -> P (ERemove q)) ->
  attr "daemon_pidfile" (daemon_pidfile self) w0 = (Ret path, w1) ->
  confined P (not_pidfile self) (os_remove path) w.
Proof.
  intros H E. apply attr_Ret in E. apply confined_remove; [auto|].
  intros N. apply N. exact E.
Qed.

Lemma read_pid_confined P Q self w : confined P Q (read_pid self) w.
Proof. apply confined_same, read_pid_world. Qed.

Lemma stop_is_confined self r w :
  confined (stop_event self w) (not_pidfile self) (stop self r) w.
Proof.
  unfold stop. apply confined_bind; [apply read_pid_confined|].
  intros p w0 R. pose proof (read_pid_world self w) as W. rewrite R in W. simpl in W.
  subst w0. destruct (pid_truthy p) eqn:T; cbn [negb].
  - destruct p as [n|]; [|discriminate]. cbn [get].
    assert (K : forall s, s = SIGTERM \/ s = SIGNULL -> stop_event self w (EKill n s)).
    { intros s S. simpl. rewrite R. auto. }
    confine.
    + apply confined_kill. apply K. auto.
    + apply confined_sleep. reflexivity.
    + apply confined_kill. apply K. auto.
    + apply confined_emit. exact I.
    + apply confined_emit. exact I.
    + eapply remove_pidfile_confined; [|eassumption]. auto.
  - confine.
    + eapply remove_pidfile_confined; [|eassumption]. auto.
    + apply confined_emit. exact I.
Qed.

Ltac confine_start :=
  repeat first
    [ progress confine
    | apply confined_emit; exact I
    | apply confined_fork; intros; exact I
    | apply confined_start; intros; exact I ].

Lemma daemonize_confined self w :
  confined (start_event self) (not_pidfile self) (daemonize self) w.
Proof.
  unfold daemonize, fork_stage, open_stream, os_dup2, signal_signal.
  confine_start.
  match goal with H : attr "daemon_pidfile" _ _ = _ |- _ => apply attr_Ret in H end.
  apply confined_write; [simpl; assumption|]. intros N. apply N. assumption.
Qed.

Lemma run_confined self0 self w :
  confined (start_event self0) (not_pidfile self0) (run self) w.
Proof. unfold run, animate. cbv zeta. confine_start. Qed.

Lemma start_is_confined self w :
  confined (start_event self) (not_pidfile self) (start self) w.
Proof.
  unfold start. apply confined_bind; [apply read_pid_confined|]. intros p w0 _.
  apply confined_bind; [confine_start|]. intros _ w1 _.
  apply confined_bind; [apply daemonize_confined|]. intros _ w2 _.
  apply confined_bind; [apply run_confined|]. intros _ w3 _. confine.
Qed.

(** ** [daemonize] when a fork does not give the child *)

Lemma fork_stage_fails failed w errno rest :
  forks w = ForkFails errno :: rest ->
  fork_stage failed w =
    (Exit 1, with_event (with_fork w (own_pid w) rest) (EStderr (failed (OSError_ errno)))).
Proof.
  intros F. unfold fork_stage, try_except, bind, os_fork. rewrite F. reflexivity.
Qed.

Lemma fork_stage_parent failed w c rest :
  forks w = InParent c :: rest -> 0 < c ->
  fork_stage failed w =
    (Exit 0, with_event (with_fork w (own_pid w) rest) (EFork (InParent c))).
Proof.
  intros F C. unfold fork_stage, try_except, bind, os_fork. rewrite F. simpl.
  destruct (Z.ltb_spec 0 c); [reflexivity|lia].
Qed.

(** [daemonize] up to its second fork, the first having given the
    child. *)
Lemma daemonize_second_stage cf w a rest r w' :
  daemonizing cf -> quiet w -> forks w = InChild a :: rest ->
  (forall w1, forks w1 = rest -> own_pid w1 = a ->
     fork_stage MsgSecondForkFailed w1 = (r, with_event (with_fork w1 a (tl rest)) w')) ->
  (forall x, r <> Ret x) ->
  fst (daemonize (__init__ cf) w) = r /\
  files (snd (daemonize (__init__ cf) w)) = files w /\
  emitted w (snd (daemonize (__init__ cf) w)) = (first_stage_events cf a ++ w' :: nil)%list.
Proof.
  intros D Q F H N. rewrite (init_daemonizing cf D). unfold daemonizing in D.
  unfold daemonize. cbn [do_daemonize]. rewrite D. cbn [negb daemon_chdir].
  rewrite (bind_Ret _ _ _ _ _ (fork_stage_child _ w a _ F)).
  do 7 step Q.
  match goal with |- context [bind (fork_stage _) _ ?w1] =>
    specialize (H w1 eq_refl eq_refl); set (w2 := w1) in * end.
  assert (E : forall (k : unit -> M unit),
             bind (fork_stage MsgSecondForkFailed) k w2
             = (r, with_event (with_fork w2 a (tl rest)) w')).
  { intros k. unfold bind. rewrite H. destruct r as [x| | |]; try reflexivity.
    destruct (N x eq_refl). }
  rewrite E. split; [reflexivity|]. split; [reflexivity|].
  apply emitted_app. unfold first_stage_events. simpl. rewrite <- !app_assoc. reflexivity.
Qed.

Lemma daemonize_second_fork_fails cf w a errno rest :
  daemonizing cf -> quiet w -> forks w = InChild a :: ForkFails errno :: rest ->
  fst (daemonize (__init__ cf) w) = Exit 1 /\
  files (snd (daemonize (__init__ cf) w)) = files w /\
  emitted w (snd (daemonize (__init__ cf) w))
    = (first_stage_events cf a
       ++ EStderr (MsgSecondForkFailed (OSError_ errno)) :: nil)%list.
Proof.
  intros D Q F. apply (daemonize_second_stage cf w a _ (Exit 1) _ D Q F); [|discriminate].
  intros w1 F1 O1. rewrite (fork_stage_fails _ w1 errno rest F1), O1. reflexivity.
Qed.

Lemma daemonize_second_parent cf w a c rest :
  daemonizing cf -> quiet w -> forks w = InChild a :: InParent c :: rest -> 0 < c ->
  fst (daemonize (__init__ cf) w) = Exit 0 /\
  files (snd (daemonize (__init__ cf) w)) = files w /\
  emitted w (snd (daemonize (__init__ cf) w))
    = (first_stage_events cf a ++ EFork (InParent c) :: nil)%list.
Proof.
  intros D Q F C. apply (daemonize_second_stage cf w a _ (Exit 0) _ D Q F); [|discriminate].
  intros w1 F1 O1. rewrite (fork_stage_parent _ w1 c rest F1 C), O1. reflexivity.
Qed.

Lemma daemonize_first_stage cf w r w' :
  daemonizing cf -> fork_stage MsgFirstForkFailed w = (r, w') -> (forall x, r <> Ret x) ->
  daemonize (__init__ cf) w = (r, w').
Proof.
  intros D H N. unfold daemonizing in D.
  assert (T : truthy (do_daemonize (__init__ cf)) = true).
  { rewrite (init_daemonizing cf D). exact D. }
  unfold daemonize. rewrite T. cbn [negb]. unfold bind. rewrite H.
  destruct r as [x| | |]; try reflexivity. destruct (N x eq_refl).
Qed.

(** ** Daemonization switched off by a false value other than [False] *)

Lemma init_foreground cf :
  foreground cf ->
  daemon_pidfile (__init__ cf) = Some (pidfile_of cf) /\
  do_daemonize (__init__ cf) = get (c_daemonize cf) (PBool true).
Proof. intros (T & E). unfold __init__. rewrite E. split; reflexivity. Qed.

Lemma daemonize_foreground cf w :
  foreground cf -> daemonize (__init__ cf) w = (Ret tt, w).
Proof.
  intros F. destruct (init_foreground cf F) as (_ & D). destruct F as (T & _).
  unfold daemonize. rewrite D, T. reflexivity.
Qed.

Lemma start_foreground cf w :
  foreground cf -> quiet w -> fit_to_run w -> files w !! pidfile_of cf = None ->
  start (__init__ cf) w = (Serving (serving (__init__ cf) (fst (next_child w))), spawned w).
Proof.
  intros F Q R A. destruct (init_foreground cf F) as (H & _).
  assert (P : fst (read_pid (__init__ cf) w) = Ret None)
    by (rewrite (read_pid_absent _ _ _ H A); reflexivity).
  rewrite (start_passes _ _ _ P eq_refl).
  rewrite (bind_Ret _ _ _ _ _ (daemonize_foreground cf w F)).
  apply bind_Serving. exact (run_serves (__init__ cf) w R Q).
Qed.

(** ** [restart] over a daemon that is there *)

Lemma restart_responsive cf w text n p a b rest :
  daemonizing cf -> files w !! pidfile_of cf = Some text ->
  py_int (str_strip text) = Some n -> n <> 0 -> fits_int n = true ->
  responsive w n p -> detaches w a b rest -> quiet w -> fit_to_run w ->
  restart (__init__ cf) w =
    (Serving (serving (__init__ cf) (fst (next_child w))),
     spawned (daemonized cf a b rest (stopped w n p (pidfile_of cf)))).
Proof.
  intros D F P N I G FK Q R. unfold restart.
  rewrite (bind_Ret _ _ _ _ _
             (stop_responsive _ w _ text n true p (init_pidfile cf D) F P N I G
                (Q CRemove))).
  set (w1 := stopped w n p (pidfile_of cf)).
  assert (A : files w1 !! pidfile_of cf = None) by apply lookup_delete_eq.
  assert (P1 : fst (read_pid (__init__ cf) w1) = Ret None)
    by (rewrite (read_pid_absent _ _ _ (init_pidfile cf D) A); reflexivity).
  exact (start_goes_through cf w1 a b rest None D FK Q R P1 eq_refl).
Qed.

Lemma restart_hung self w path text n :
  daemon_pidfile self = Some path -> files w !! path = Some text ->
  py_int (str_strip text) = Some n -> n <> 0 -> fits_int n = true ->
  hung w n ->
  restart self w = stop self true w.
Proof.
  intros H F P N I G.
  destruct (stop_hung_once self w path text n true H F P N I G) as (E & _).
  unfold restart. destruct (stop self true w) as [r w1] eqn:S. simpl in E. subst r.
  apply bind_Exit. exact S.
Qed.


(** ** Further properties of the controller *)

(** X1: the line [daemonize] writes for a pid, ["{}\n".format(pid)], is
    read back by [int(text.strip())] as that pid, whatever the integer. *)
Theorem pid_text_round_trip (n : Z) :
  py_int (str_strip (format_int n ++ newline)) = Some n /\
  py_int (format_int n ++ newline) = Some n.
Proof.
  split; [apply py_int_pid_line|].
  unfold py_int. rewrite (str_strip_line _ (no_space_format_int n)).
  pose proof (py_int_format_int n) as E. unfold py_int in E.
  rewrite (str_strip_no_space _ (no_space_format_int n)) in E. exact E.
Qed.

Lemma pid_text_round_trip_witness :
  py_int (str_strip (format_int 4242 ++ newline)) = Some 4242.
Proof. exact (proj1 (pid_text_round_trip 4242)). Defined.

(** X2: when daemonization is on, the streams are left on the null
    device and the pidfile has an absolute path, both forks give the child
    and nothing in the environment fails, [daemonize] returns in the
    second child: it has changed directory, started a session, reset the
    umask, redirected the three streams, bound [SIGINT] and [SIGTERM] to
    [cleanup] and [SIGHUP] to [reload], and written the pid of that second
    child to the pidfile, in this order, and has touched nothing else. *)
Theorem daemonize_detaches (cf : Conf) (w : World) (a b : Z) (rest : list fork_result) :
  daemonizing cf -> plain_setup cf = true -> detaches w a b rest -> quiet w ->
  let w' := snd (daemonize (__init__ cf) w) in
  fst (daemonize (__init__ cf) w) = Ret tt /\
  own_pid w' = b /\
  files w' = <[pidfile_of cf := (format_int b ++ newline)%string]> (files w) /\
  procs w' = procs w /\
  exists t, emitted w w' = daemonize_events cf a b t.
Proof.
  intros D _ F Q. rewrite (daemonize_goes_through cf w a b rest D F Q).
  cbv zeta. cbn [fst snd].
  split; [reflexivity|]. split; [reflexivity|]. split; [reflexivity|].
  split; [reflexivity|]. exists (now w). apply emitted_app. reflexivity.
Qed.

Lemma daemonize_detaches_witness :
  let w := machine ∅ ∅ prompt_child in
  fst (daemonize (__init__ conf_default) w) = Ret tt /\
  files (snd (daemonize (__init__ conf_default) w))
  = <[ "/tmp/rgbd.pid" := ("102" ++ newline)%string ]> ∅.
Proof.
  cbv zeta.
  destruct (daemonize_detaches conf_default (machine ∅ ∅ prompt_child) 101 102 nil)
    as (E & _ & F & _); [reflexivity|reflexivity|reflexivity|intros c; reflexivity|].
  split; [exact E|exact F].
Defined.

(** X3: when a fork fails, at the first stage or at the second,
    [daemonize] writes its diagnostic to the error stream and exits with
    status 1; no stream is redirected, no handler bound and no pidfile
    written. *)
Theorem daemonize_fork_failure (cf : Conf) (w : World) (a errno : Z)
    (rest : list fork_result) :
  daemonizing cf -> quiet w ->
  (forks w = ForkFails errno :: rest ->
   fst (daemonize (__init__ cf) w) = Exit 1 /\
   files (snd (daemonize (__init__ cf) w)) = files w /\
   emitted w (snd (daemonize (__init__ cf) w))
     = EStderr (MsgFirstForkFailed (OSError_ errno)) :: nil) /\
  (forks w = InChild a :: ForkFails errno :: rest ->
   fst (daemonize (__init__ cf) w) = Exit 1 /\
   files (snd (daemonize (__init__ cf) w)) = files w /\
   emitted w (snd (daemonize (__init__ cf) w))
     = (first_stage_events cf a
        ++ EStderr (MsgSecondForkFailed (OSError_ errno)) :: nil)%list).
Proof.
  intros D Q. split; intros F.
  - rewrite (daemonize_first_stage cf w _ _ D (fork_stage_fails _ w errno rest F));
      [|discriminate].
    repeat split. apply emitted_app. reflexivity.
  - exact (daemonize_second_fork_fails cf w a errno rest D Q F).
Qed.

Lemma daemonize_fork_failure_witness :
  fst (daemonize (__init__ conf_default) (machine_forking (ForkFails 12 :: nil))) = Exit 1 /\
  fst (daemonize (__init__ conf_default)
         (machine_forking (InChild 101 :: ForkFails 12 :: nil))) = Exit 1 /\
  files (snd (daemonize (__init__ conf_default)
                (machine_forking (InChild 101 :: ForkFails 12 :: nil)))) = ∅.
Proof.
  destruct (daemonize_fork_failure conf_default (machine_forking (ForkFails 12 :: nil))
              101 12 nil) as (A & _); [reflexivity|intros c; reflexivity|].
  destruct (daemonize_fork_failure conf_default
              (machine_forking (InChild 101 :: ForkFails 12 :: nil)) 101 12 nil)
    as (_ & B); [reflexivity|intros c; reflexivity|].
  destruct (A eq_refl) as (A1 & _). destruct (B eq_refl) as (B1 & B2 & _).
  split; [exact A1|]. split; [exact B1|exact B2].
Defined.

(** X4: in the process for which a fork returns the pid of its child,
    at the first stage or at the second, [daemonize] exits with status 0
    right after that fork: neither parent writes the pidfile. *)
Theorem daemonize_parents_exit (cf : Conf) (w : World) (a c : Z)
    (rest : list fork_result) :
  daemonizing cf -> quiet w -> 0 < c ->
  (forks w = InParent c :: rest ->
   fst (daemonize (__init__ cf) w) = Exit 0 /\
   files (snd (daemonize (__init__ cf) w)) = files w /\
   emitted w (snd (daemonize (__init__ cf) w)) = EFork (InParent c) :: nil) /\
  (forks w = InChild a :: InParent c :: rest ->
   fst (daemonize (__init__ cf) w) = Exit 0 /\
   files (snd (daemonize (__init__ cf) w)) = files w /\
   emitted w (snd (daemonize (__init__ cf) w))
     = (first_stage_events cf a ++ EFork (InParent c) :: nil)%list).
Proof.
  intros D Q C. split; intros F.
  - rewrite (daemonize_first_stage cf w _ _ D (fork_stage_parent _ w c rest F C));
      [|discriminate].
    repeat split. apply emitted_app. reflexivity.
  - exact (daemonize_second_parent cf w a c rest D Q F C).
Qed.

Lemma daemonize_parents_exit_witness :
  fst (daemonize (__init__ conf_default) (machine_forking (InParent 101 :: nil))) = Exit 0 /\
  fst (daemonize (__init__ conf_default)
         (machine_forking (InChild 101 :: InParent 102 :: nil))) = Exit 0.
Proof.
  destruct (daemonize_parents_exit conf_default (machine_forking (InParent 101 :: nil))
              101 101 nil) as (A & _); [reflexivity|intros c; reflexivity|lia|].
  destruct (daemonize_parents_exit conf_default
              (machine_forking (InChild 101 :: InParent 102 :: nil)) 101 102 nil)
    as (_ & B); [reflexivity|intros c; reflexivity|lia|].
  destruct (A eq_refl) as (A1 & _). destruct (B eq_refl) as (B1 & _).
  split; [exact A1|exact B1].
Defined.

(** X6: with the streams left on the null device and a pidfile of
    absolute path, on a machine without pidfile where the forks give the
    child, nothing fails and the user is not root, [start] ends in the
    animation loop: the process is the second child, the pidfile holds its pid, the
    listener is a new child process, and the object carries its queue,
    its listener and its engine; nothing else has happened. *)
Theorem start_brings_up_daemon (cf : Conf) (w : World) (a b : Z)
    (rest : list fork_result) :
  daemonizing cf -> plain_setup cf = true ->
  detaches w a b rest -> quiet w -> fit_to_run w ->
  files w !! pidfile_of cf = None ->
  let c := fst (next_child w) in
  let w' := snd (start (__init__ cf) w) in
  fst (start (__init__ cf) w) = Serving (serving (__init__ cf) c) /\
  listener_thread (serving (__init__ cf) c) = Some {| pid := Some c |} /\
  strip (serving (__init__ cf) c) = Some StripObject /\
  own_pid w' = b /\
  procs w' !! c = Some (snd (next_child w)) /\
  files w' = <[pidfile_of cf := (format_int b ++ newline)%string]> (files w) /\
  exists t, emitted w w' = (daemonize_events cf a b t ++ ESpawn c :: nil)%list.
Proof.
  intros D _ F Q R A. cbv zeta.
  assert (P : fst (read_pid (__init__ cf) w) = Ret None)
    by (rewrite (read_pid_absent _ _ _ (init_pidfile cf D) A); reflexivity).
  rewrite (start_goes_through cf w a b rest None D F Q R P eq_refl). cbn [fst snd].
  split; [reflexivity|].
  split; [reflexivity|]. split; [reflexivity|]. split; [reflexivity|].
  split; [apply lookup_insert_eq|]. split; [reflexivity|].
  exists (now w). apply emitted_app. simpl. rewrite <- app_assoc. reflexivity.
Qed.

Lemma start_brings_up_daemon_witness :
  let w := machine ∅ ∅ prompt_child in
  fst (start (__init__ conf_default) w) = Serving (serving (__init__ conf_default) 103) /\
  files (snd (start (__init__ conf_default) w))
  = {[ "/tmp/rgbd.pid" := ("102" ++ newline)%string ]}.
Proof.
  cbv zeta.
  destruct (start_brings_up_daemon conf_default (machine ∅ ∅ prompt_child) 101 102 nil)
    as (E & _ & _ & _ & _ & F & _).
  - reflexivity.
  - reflexivity.
  - reflexivity.
  - intros c. reflexivity.
  - unfold fit_to_run. simpl. lia.
  - reflexivity.
  - split; [exact E|]. rewrite F. reflexivity.
Defined.

(** X7: with the streams left on the null device and a pidfile of
    absolute path: once a [start] has gone through, with a pid other than
    0, every later [start] under the same configuration, on any machine
    that holds the pidfile it wrote, finds that pid in it, reports it and
    exits with status 1 without doing anything else. *)
Theorem second_start_refused (cf : Conf) (w w2 : World) (a b : Z)
    (rest : list fork_result) :
  daemonizing cf -> plain_setup cf = true ->
  detaches w a b rest -> quiet w -> fit_to_run w ->
  files w !! pidfile_of cf = None -> b <> 0 ->
  files w2 !! pidfile_of cf = files (snd (start (__init__ cf) w)) !! pidfile_of cf ->
  read_pid (__init__ cf) w2 = (Ret (Some b), w2) /\
  start (__init__ cf) w2 = (Exit 1, with_event w2 (EStderr (MsgPidfileExists b))).
Proof.
  intros D _ F Q R A B E.
  assert (P : fst (read_pid (__init__ cf) w) = Ret None)
    by (rewrite (read_pid_absent _ _ _ (init_pidfile cf D) A); reflexivity).
  rewrite (start_goes_through cf w a b rest None D F Q R P eq_refl) in E.
  assert (E2 : files w2 !! pidfile_of cf = Some (format_int b ++ newline)%string)
    by (rewrite E; apply lookup_insert_eq).
  pose proof (read_pid_daemonized cf w2 b D E2) as RP.
  split; [exact RP|]. apply start_refuses; [rewrite RP; reflexivity|exact B].
Qed.

Lemma second_start_refused_witness :
  let w := machine ∅ ∅ prompt_child in
  let w2 := with_files w (files (snd (start (__init__ conf_default) w))) in
  start (__init__ conf_default) w2 = (Exit 1, with_event w2 (EStderr (MsgPidfileExists 102))).
Proof.
  cbv zeta.
  apply (second_start_refused conf_default (machine ∅ ∅ prompt_child)
           (with_files (machine ∅ ∅ prompt_child)
              (files (snd (start (__init__ conf_default) (machine ∅ ∅ prompt_child)))))
           101 102 nil).
  - reflexivity.
  - reflexivity.
  - reflexivity.
  - intros c. reflexivity.
  - unfold fit_to_run. simpl. lia.
  - reflexivity.
  - lia.
  - vm_compute. reflexivity.
Defined.

(** X8: [start] followed by [cleanup] of the daemon it left serving,
    with the streams left on the null device and a pidfile of absolute
    path: when the listener is a child that signals reach and nothing in
    the environment fails, [cleanup] exits with status 0 and the files
    are again what they were before the [start]: the pidfile is gone. *)
Theorem start_then_cleanup (cf : Conf) (w : World) (a b : Z) (rest : list fork_result) :
  daemonizing cf -> plain_setup cf = true ->
  detaches w a b rest -> quiet w -> fit_to_run w ->
  files w !! pidfile_of cf = None ->
  fits_int (fst (next_child w)) = true ->
  is_child (snd (next_child w)) = true -> may_signal (snd (next_child w)) = true ->
  let self := serving (__init__ cf) (fst (next_child w)) in
  let w1 := snd (start (__init__ cf) w) in
  fst (start (__init__ cf) w) = Serving self /\
  files w1 !! pidfile_of cf = Some (format_int b ++ newline)%string /\
  fst (cleanup self w1) = Exit 0 /\
  files (snd (cleanup self w1)) = files w.
Proof.
  intros D _ F Q R A I C S. cbv zeta.
  assert (P : fst (read_pid (__init__ cf) w) = Ret None)
    by (rewrite (read_pid_absent _ _ _ (init_pidfile cf D) A); reflexivity).
  rewrite (start_goes_through cf w a b rest None D F Q R P eq_refl).
  cbn [fst snd]. split; [reflexivity|]. split; [apply lookup_insert_eq|].
  set (w1 := spawned (daemonized cf a b rest w)).
  set (self := serving (__init__ cf) (fst (next_child w))).
  assert (H : daemon_pidfile self = Some (pidfile_of cf)) by exact (init_pidfile cf D).
  assert (CH : child_of w1 {| pid := Some (fst (next_child w)) |} (fst (next_child w))
                        (snd (next_child w))).
  { repeat split; try assumption. apply lookup_insert_eq. }
  assert (CB : can_blank self w1) by (intros _; split; [discriminate|apply Q]).
  assert (X : files w1 !! pidfile_of cf = None \/ faults w1 CRemove = None)
    by (right; exact (Q CRemove)).
  destruct (cleanup_running self w1 _ _ _ _ H eq_refl CH CB X)
    as (w' & wt & E & Fl & _).
  rewrite E. cbn [fst snd]. split; [reflexivity|].
  rewrite Fl. apply delete_insert_id. exact A.
Qed.

Lemma start_then_cleanup_witness :
  let w := machine ∅ ∅ prompt_child in
  let self := serving (__init__ conf_blanking) 103 in
  fst (start (__init__ conf_blanking) w) = Serving self /\
  fst (cleanup self (snd (start (__init__ conf_blanking) w))) = Exit 0 /\
  files (snd (cleanup self (snd (start (__init__ conf_blanking) w)))) = ∅.
Proof.
  cbv zeta.
  destruct (start_then_cleanup conf_blanking (machine ∅ ∅ prompt_child) 101 102 nil)
    as (A & _ & B & C).
  - reflexivity.
  - reflexivity.
  - reflexivity.
  - intros c. reflexivity.
  - unfold fit_to_run. simpl. lia.
  - reflexivity.
  - reflexivity.
  - reflexivity.
  - reflexivity.
  - split; [exact A|]. split; [exact B|exact C].
Defined.

(** X9: [start] daemonizes before [run] checks the user: as root, under
    an interpreter [run] accepts, with the streams left on the null device
    and a pidfile of absolute path, [start] ends in the exception of [run]
    after the process has detached and written its pidfile; no listener
    is spawned and the pidfile stays behind. *)
Theorem start_unfit_leaves_pidfile (cf : Conf) (w : World) (a b : Z)
    (rest : list fork_result) :
  daemonizing cf -> plain_setup cf = true ->
  detaches w a b rest -> quiet w -> run_as_root w ->
  files w !! pidfile_of cf = None ->
  let w' := snd (start (__init__ cf) w) in
  (exists msg, fst (start (__init__ cf) w) = Raise (Exception msg)) /\
  files w' !! pidfile_of cf = Some (format_int b ++ newline)%string /\
  procs w' = procs w /\
  exists t, emitted w w' = daemonize_events cf a b t.
Proof.
  intros D _ F Q (V & U) A. cbv zeta.
  assert (P : fst (read_pid (__init__ cf) w) = Ret None)
    by (rewrite (read_pid_absent _ _ _ (init_pidfile cf D) A); reflexivity).
  destruct (start_unfit cf w a b rest None D F Q (or_intror U) P eq_refl) as (msg & E).
  rewrite E. cbn [fst snd]. split; [eauto|]. split; [apply lookup_insert_eq|].
  split; [reflexivity|]. exists (now w). apply emitted_app. reflexivity.
Qed.

Lemma start_unfit_leaves_pidfile_witness :
  let w := machine_of_root ∅ in
  (exists msg, fst (start (__init__ conf_default) w) = Raise (Exception msg)) /\
  files (snd (start (__init__ conf_default) w)) !! "/tmp/rgbd.pid"
    = Some ("102" ++ newline)%string.
Proof.
  cbv zeta.
  destruct (start_unfit_leaves_pidfile conf_default (machine_of_root ∅) 101 102 nil)
    as (A & B & _).
  - reflexivity.
  - reflexivity.
  - reflexivity.
  - intros c. reflexivity.
  - split; [simpl; lia|left; reflexivity].
  - reflexivity.
  - split; [exact A|exact B].
Defined.

(** X10: when the pidfile names a live process that the caller may
    signal and that is gone within 300 ms of the [SIGTERM], and the
    caller may delete the pidfile, [stop] sends the signal, sleeps its
    300 ms, finds the process gone and returns, having written nothing to
    the user: after the signal and the sleep all it does is remove the
    pidfile, and the pidfile is gone when it returns. *)
Theorem stop_ends_responsive_daemon (self : RGBd) (w : World) (path text : string)
    (n : Z) (r : bool) (p : proc) :
  daemon_pidfile self = Some path -> files w !! path = Some text ->
  py_int (str_strip text) = Some n -> n <> 0 -> fits_int n = true ->
  responsive w n p -> faults w CRemove = None ->
  let w' := snd (stop self r w) in
  fst (stop self r w) = Ret tt /\
  (exists rest, emitted w w' = EKill n SIGTERM :: ESleep 300 :: rest /\
     forall e, In e rest -> e = ERemove path) /\
  files w' !! path = None /\
  process_exists w' n = false.
Proof.
  intros H F P N I G X. rewrite (stop_responsive self w path text n r p H F P N I G X).
  cbv zeta. cbn [fst snd]. split; [reflexivity|]. split.
  { exists (ERemove path :: nil). split.
    - apply emitted_app. unfold stopped. simpl. rewrite <- !app_assoc. reflexivity.
    - intros e [<-|[]]. reflexivity. }
  split; [apply lookup_delete_eq|].
  destruct G as (L & S & C & D & O).
  unfold outlives in O. rewrite D in O. apply negb_false_iff in O.
  assert (LP : procs (stopped w n p path) !! n = Some (deliver (now w) SIGTERM p))
    by apply lookup_insert_eq.
  unfold process_exists. rewrite LP. unfold gone. rewrite deliver_is_child, C.
  change (dead (stopped w n p path) (deliver (now w) SIGTERM p))
    with (dead (with_now w (now w + 300)%N) (deliver (now w) SIGTERM p)).
  rewrite O. reflexivity.
Qed.

Lemma stop_ends_responsive_daemon_witness :
  let w := machine (pidfile_with "4242") {[ 4242 := obedient_daemon ]} prompt_child in
  responsive w 4242 obedient_daemon /\
  fst (stop (__init__ conf_default) false w) = Ret tt /\
  files (snd (stop (__init__ conf_default) false w)) !! "/tmp/rgbd.pid" = None.
Proof.
  cbv zeta.
  assert (G : responsive (machine (pidfile_with "4242") {[ 4242 := obedient_daemon ]}
                                  prompt_child) 4242 obedient_daemon)
    by (repeat split).
  destruct (stop_ends_responsive_daemon (__init__ conf_default)
              (machine (pidfile_with "4242") {[ 4242 := obedient_daemon ]} prompt_child)
              "/tmp/rgbd.pid" "4242" 4242 false obedient_daemon)
    as (A & _ & B & _);
    [reflexivity|reflexivity|reflexivity|lia|reflexivity|exact G|reflexivity|].
  split; [exact G|]. split; [exact A|exact B].
Defined.

(** X11: when the pidfile names a process that exists but that the
    caller may not signal, [stop] reports that it could not and exits with
    status 1 at once: no sleep, no second signal, the pidfile and the
    process untouched. *)
Theorem stop_permission_denied (self : RGBd) (w : World) (path text : string)
    (n : Z) (r : bool) (p : proc) :
  daemon_pidfile self = Some path -> files w !! path = Some text ->
  py_int (str_strip text) = Some n -> n <> 0 -> fits_int n = true ->
  procs w !! n = Some p -> gone w p = false -> may_signal p = false ->
  let w' := snd (stop self r w) in
  fst (stop self r w) = Exit 1 /\
  emitted w w' = EStderr (MsgUnableToKill n) :: nil /\
  now w' = now w /\ files w' = files w /\ procs w' = procs w.
Proof.
  intros H F P N I L G S. rewrite (stop_denied self w path text n r p H F P N I L G S).
  cbv zeta. cbn [fst snd]. repeat split. apply emitted_app. reflexivity.
Qed.

Lemma stop_permission_denied_witness :
  let w := machine (pidfile_with "1") {[ 1 := foreign_process ]} prompt_child in
  fst (stop (__init__ conf_default) true w) = Exit 1 /\
  files (snd (stop (__init__ conf_default) true w)) = files w.
Proof.
  cbv zeta.
  destruct (stop_permission_denied (__init__ conf_default)
              (machine (pidfile_with "1") {[ 1 := foreign_process ]} prompt_child)
              "/tmp/rgbd.pid" "1" 1 true foreign_process)
    as (A & _ & _ & B & _);
    [reflexivity|reflexivity|reflexivity|lia|reflexivity|reflexivity|reflexivity
    |reflexivity|].
  split; [exact A|exact B].
Defined.

(** X12: when the pidfile holds an integer other than 0 that does not fit
    the C [int] [os.kill] takes, [stop] ends in an uncaught
    [OverflowError] with nothing done and the pidfile left in place,
    while [start] refuses on the same pidfile as on any other pid. *)
Theorem stop_pid_out_of_range (self : RGBd) (w : World) (path text : string)
    (n : Z) (r : bool) :
  daemon_pidfile self = Some path -> files w !! path = Some text ->
  py_int (str_strip text) = Some n -> fits_int n = false ->
  stop self r w = (Raise OverflowError, w) /\
  start self w = (Exit 1, with_event w (EStderr (MsgPidfileExists n))).
Proof.
  intros H F P I.
  assert (N : n <> 0) by (intros ->; discriminate I).
  split; [exact (stop_overflow self w path text n r H F P N I)|].
  apply start_refuses; [|exact N].
  rewrite (read_pid_present _ _ _ _ H F), P. reflexivity.
Qed.

Lemma stop_pid_out_of_range_witness :
  let w := machine (pidfile_with "4294967296") ∅ prompt_child in
  stop (__init__ conf_default) false w = (Raise OverflowError, w).
Proof.
  cbv zeta.
  apply (stop_pid_out_of_range (__init__ conf_default)
           (machine (pidfile_with "4294967296") ∅ prompt_child)
           "/tmp/rgbd.pid" "4294967296" 4294967296 false);
    reflexivity.
Defined.

(** X13: [restart] over a responsive process, with the streams left on
    the null device and a pidfile of absolute path: the process the
    pidfile names is sent [SIGTERM] and given its 300 ms, and the [start]
    that follows is not refused: on a machine where the forks give the
    child, nothing fails and the user is not root, [restart] ends in the
    animation loop with a new listener and the pidfile holding the pid of
    the new daemon; no other signal is sent. *)
Theorem restart_replaces_daemon (cf : Conf) (w : World) (text : string) (n : Z)
    (p : proc) (a b : Z) (rest : list fork_result) :
  daemonizing cf -> plain_setup cf = true ->
  files w !! pidfile_of cf = Some text ->
  py_int (str_strip text) = Some n -> n <> 0 -> fits_int n = true ->
  responsive w n p -> detaches w a b rest -> quiet w -> fit_to_run w ->
  let c := fst (next_child w) in
  let w' := snd (restart (__init__ cf) w) in
  fst (restart (__init__ cf) w) = Serving (serving (__init__ cf) c) /\
  files w' !! pidfile_of cf = Some (format_int b ++ newline)%string /\
  own_pid w' = b /\
  procs w' !! c = Some (snd (next_child w)) /\
  exists after, emitted w w' = EKill n SIGTERM :: ESleep 300 :: after /\
    In (EWrite (pidfile_of cf) (format_int b ++ newline)) after /\
    In (ESpawn c) after /\
    forall t s, ~ In (EKill t s) after.
Proof.
  intros D _ F P N I G FK Q R.
  rewrite (restart_responsive cf w text n p a b rest D F P N I G FK Q R).
  cbv zeta. cbn [fst snd]. split; [reflexivity|]. split; [apply lookup_insert_eq|].
  split; [reflexivity|]. split; [apply lookup_insert_eq|].
  exists (ERemove (pidfile_of cf)
          :: daemonize_events cf a b (now w + 300) ++ ESpawn (fst (next_child w)) :: nil)%list.
  split.
  { apply emitted_app. unfold stopped. simpl. rewrite <- !app_assoc. reflexivity. }
  unfold daemonize_events. cbn [app In].
  split; [repeat (first [left; reflexivity | right])|].
  split; [repeat (first [left; reflexivity | right])|].
  intros t s K. intuition discriminate.
Qed.

Lemma restart_replaces_daemon_witness :
  let w := machine (pidfile_with "4242") {[ 4242 := obedient_daemon ]} prompt_child in
  fst (restart (__init__ conf_default) w) = Serving (serving (__init__ conf_default) 103) /\
  files (snd (restart (__init__ conf_default) w)) !! "/tmp/rgbd.pid"
    = Some ("102" ++ newline)%string.
Proof.
  cbv zeta.
  assert (G : responsive (machine (pidfile_with "4242") {[ 4242 := obedient_daemon ]}
                                  prompt_child) 4242 obedient_daemon)
    by (repeat split).
  destruct (restart_replaces_daemon conf_default
              (machine (pidfile_with "4242") {[ 4242 := obedient_daemon ]} prompt_child)
              "4242" 4242 obedient_daemon 101 102 nil)
    as (A & B & _).
  - reflexivity.
  - reflexivity.
  - reflexivity.
  - reflexivity.
  - lia.
  - reflexivity.
  - exact G.
  - reflexivity.
  - intros c. reflexivity.
  - unfold fit_to_run. simpl. lia.
  - split; [exact A|exact B].
Defined.

(** X14: [restart] over a hung daemon stops at the [stop]: it reports
    the hang and exits with status 1; no second instance is started and
    the pidfile stays. *)
Theorem restart_over_hung_daemon (self : RGBd) (w : World) (path text : string) (n : Z) :
  daemon_pidfile self = Some path -> files w !! path = Some text ->
  py_int (str_strip text) = Some n -> n <> 0 -> fits_int n = true ->
  hung w n ->
  let w' := snd (restart self w) in
  fst (restart self w) = Exit 1 /\
  emitted w w' = EKill n SIGTERM :: ESleep 300 :: EKill n SIGNULL :: EStderr MsgHung :: nil /\
  files w' = files w.
Proof.
  intros H F P N I G. rewrite (restart_hung self w path text n H F P N I G).
  destruct (stop_hung_once self w path text n true H F P N I G) as (A & B & _ & C).
  cbv zeta. auto.
Qed.

Lemma restart_over_hung_daemon_witness :
  let w := machine (pidfile_with "4242") {[ 4242 := stuck_daemon ]} prompt_child in
  fst (restart (__init__ conf_default) w) = Exit 1 /\
  files (snd (restart (__init__ conf_default) w)) = files w.
Proof.
  cbv zeta.
  destruct (restart_over_hung_daemon (__init__ conf_default)
              (machine (pidfile_with "4242") {[ 4242 := stuck_daemon ]} prompt_child)
              "/tmp/rgbd.pid" "4242" 4242)
    as (A & _ & B);
    [reflexivity|reflexivity|reflexivity|lia|reflexivity
    |exists stuck_daemon; repeat split|].
  split; [exact A|exact B].
Defined.

(** X15: a [daemonize] member that is false without being equal to
    [False] ([null], an empty string, list or object) gives the
    foreground mode: the constructor sets the [daemon_*] attributes,
    [daemonize] does nothing, and [start] goes straight to [run]: no
    fork, no redirection, no handler, no pidfile. *)
Theorem foreground_by_false_value (cf : Conf) (w : World) :
  foreground cf -> quiet w -> fit_to_run w -> files w !! pidfile_of cf = None ->
  let w' := snd (start (__init__ cf) w) in
  daemon_pidfile (__init__ cf) = Some (pidfile_of cf) /\
  daemonize (__init__ cf) w = (Ret tt, w) /\
  fst (start (__init__ cf) w) = Serving (serving (__init__ cf) (fst (next_child w))) /\
  emitted w w' = ESpawn (fst (next_child w)) :: nil /\
  files w' = files w /\ own_pid w' = own_pid w.
Proof.
  intros F Q R A. rewrite (start_foreground cf w F Q R A). cbv zeta. cbn [fst snd].
  split; [apply (init_foreground cf F)|]. split; [apply (daemonize_foreground cf w F)|].
  split; [reflexivity|]. split; [apply emitted_app; reflexivity|].
  split; reflexivity.
Qed.

Lemma foreground_by_false_value_witness :
  let w := machine ∅ ∅ prompt_child in
  fst (start (__init__ conf_null_daemonize) w)
  = Serving (serving (__init__ conf_null_daemonize) 103) /\
  emitted w (snd (start (__init__ conf_null_daemonize) w)) = ESpawn 103 :: nil.
Proof.
  cbv zeta.
  destruct (foreground_by_false_value conf_null_daemonize (machine ∅ ∅ prompt_child))
    as (_ & _ & A & B & _).
  - split; reflexivity.
  - intros c. reflexivity.
  - unfold fit_to_run. simpl. lia.
  - reflexivity.
  - split; [exact A|exact B].
Defined.

(** X16: whatever the object and the machine, every [os.kill] of
    [stop] that returns was given the integer [stop] read from the
    pidfile, with [SIGTERM] or with the null signal; every file [stop]
    deletes with [os.remove] is the pidfile; all it does besides is sleep
    its 300 ms and write to the error stream: it forks and spawns
    nothing, writes no pidfile and redirects no stream. *)
Theorem stop_touches_only_its_target (self : RGBd) (r : bool) (w : World) :
  Forall (stop_event self w) (emitted w (snd (stop self r w))) /\
  (forall t s, In (EKill t s) (emitted w (snd (stop self r w))) ->
     fst (read_pid self w) = Ret (Some t) /\ (s = SIGTERM \/ s = SIGNULL)) /\
  (forall q, In (ERemove q) (emitted w (snd (stop self r w))) ->
     daemon_pidfile self = Some q).
Proof.
  destruct (stop_is_confined self r w) as (evs & L & F & _).
  rewrite (emitted_app _ _ _ L). split; [exact F|].
  rewrite List.Forall_forall in F.
  split; [intros t s I; exact (F _ I)|intros q I; exact (F _ I)].
Qed.

Lemma stop_touches_only_its_target_witness :
  let w := machine (<[ "/etc/passwd" := "root" ]> (pidfile_with "4242"))
                   {[ 4242 := obedient_daemon; 1 := foreign_process ]} prompt_child in
  Forall (stop_event (__init__ conf_default) w)
         (emitted w (snd (stop (__init__ conf_default) false w))) /\
  In (EKill 4242 SIGTERM) (emitted w (snd (stop (__init__ conf_default) false w))).
Proof.
  cbv zeta.
  destruct (stop_touches_only_its_target (__init__ conf_default) false
              (machine (<[ "/etc/passwd" := "root" ]> (pidfile_with "4242"))
                       {[ 4242 := obedient_daemon; 1 := foreign_process ]} prompt_child))
    as (A & _ & _).
  split; [exact A|]. vm_compute. auto.
Defined.

(** X17: whatever the object and the machine, every [os.kill] of
    [cleanup] that returns was given the pid of its own listener, with
    [SIGINT] or [SIGKILL]; it joins that listener for at most 250 ms;
    every file it deletes with [os.remove] is the pidfile; all it does
    besides is blank the output, print and close the streams: it forks
    and spawns nothing and writes no pidfile. *)
Theorem cleanup_touches_only_its_child (self : RGBd) (w : World) :
  Forall (cleanup_event self) (emitted w (snd (cleanup self w))) /\
  (forall t s, In (EKill t s) (emitted w (snd (cleanup self w))) ->
     (exists lt, listener_thread self = Some lt /\ pid lt = Some t) /\
     (s = SIGINT \/ s = SIGKILL)) /\
  (forall q, In (ERemove q) (emitted w (snd (cleanup self w))) ->
     daemon_pidfile self = Some q).
Proof.
  destruct (cleanup_is_confined self w) as (evs & L & F & _).
  rewrite (emitted_app _ _ _ L). split; [exact F|].
  rewrite List.Forall_forall in F.
  split; [intros t s I; exact (F _ I)|intros q I; exact (F _ I)].
Qed.

Lemma cleanup_touches_only_its_child_witness :
  let self := daemon_of (booted conf_blanking deaf_child) in
  let w := snd (booted conf_blanking deaf_child) in
  Forall (cleanup_event self) (emitted w (snd (cleanup self w))) /\
  In (EKill 103 SIGKILL) (emitted w (snd (cleanup self w))).
Proof.
  cbv zeta.
  destruct (cleanup_touches_only_its_child (daemon_of (booted conf_blanking deaf_child))
              (snd (booted conf_blanking deaf_child))) as (A & _ & _).
  split; [exact A|]. vm_compute. auto 6.
Defined.

(** X18: whatever the object and the machine, [start] makes no
    [os.kill], [time.sleep], [join] or [os.remove] that returns, blanks
    nothing and closes no stream, and the one file it writes a pid to is
    the pidfile. *)
Theorem start_touches_only_the_pidfile (self : RGBd) (w : World) :
  Forall (start_event self) (emitted w (snd (start self w))) /\
  (forall t s, ~ In (EKill t s) (emitted w (snd (start self w)))) /\
  (forall q, ~ In (ERemove q) (emitted w (snd (start self w)))) /\
  (forall q text, In (EWrite q text) (emitted w (snd (start self w))) ->
     daemon_pidfile self = Some q).
Proof.
  destruct (start_is_confined self w) as (evs & L & F & _).
  rewrite (emitted_app _ _ _ L). split; [exact F|].
  rewrite List.Forall_forall in F.
  split; [intros t s I; exact (F _ I)|].
  split; [intros q I; exact (F _ I)|intros q text I; exact (F _ I)].
Qed.

Lemma start_touches_only_the_pidfile_witness :
  let w := machine {[ "/etc/passwd" := "root" ]} {[ 1 := foreign_process ]} prompt_child in
  Forall (start_event (__init__ conf_default))
         (emitted w (snd (start (__init__ conf_default) w))) /\
  In (EWrite "/tmp/rgbd.pid" ("102" ++ newline))
     (emitted w (snd (start (__init__ conf_default) w))).
Proof.
  cbv zeta.
  destruct (start_touches_only_the_pidfile (__init__ conf_default)
              (machine {[ "/etc/passwd" := "root" ]} {[ 1 := foreign_process ]}
                       prompt_child))
    as (A & _ & _ & _).
  split; [exact A|]. vm_compute. auto 20.
Defined.
